(** * BaiduPCS-Go: the upload task unit and the terminal task printer

    A shallow embedding of two files of the repository:

    - [taskframework], the task printer with the scroll-back block
      ([multiLineMsg]) and the [mask] field: the event handler [Update]
      and the redraw [Render] of [TaskPrinter], its loop [Start] and the
      functions that send on its channel; and the version of the printer
      that keeps a history of messages per task;
    - [pcsupload/upload_task_unit.go]: [prepareFile], [rapidUpload],
      [upload] and [Run] of [UploadTaskUnit].

    The printer is a pure state transformer that returns the text it
    prints. The task unit runs in a state monad over the task unit, the
    checkpoint store and the list of calls it makes to its collaborators;
    what the collaborators answer is given by a [World].

    Go [int] values are modelled as [Z]; none of the properties below
    depends on 64-bit wrap-around. Go strings are byte strings and are
    modelled by [string] (a list of bytes). *)

From Stdlib Require Import Ascii String.
From stdpp Require Import gmap strings list pretty.

Open Scope string_scope.
Open Scope list_scope.
Open Scope Z_scope.

(** ** Go library functions used by both packages *)

Module GoLib.

(** The line feed and escape bytes. *)
Definition LF : ascii := "010"%char.
Definition ESC : ascii := "027"%char.
Definition NL : string := String LF "".

(** [strings.Contains(s, substr)]. *)
Fixpoint Contains (s substr : string) : bool :=
  String.prefix substr s ||
  match s with
  | EmptyString => false
  | String _ rest => Contains rest substr
  end.

(** [strings.Split(s, "\n")]: the pieces between the line feeds; a string
    with [n] line feeds gives [n + 1] pieces. *)
Fixpoint SplitLF (s : string) : list string :=
  match s with
  | EmptyString => [""]
  | String c rest =>
      if Ascii.eqb c LF then "" :: SplitLF rest
      else match SplitLF rest with
           | piece :: pieces => String c piece :: pieces
           | [] => [String c ""]
           end
  end.

(** [strings.Repeat(" ", n)]. Go panics on a negative count; the callers
    below only pass positive counts. *)
Definition RepeatSpace (n : Z) : string :=
  string_of_list_ascii (repeat " "%char (Z.to_nat n)).

(** [%d] of [fmt.Sprintf]. *)
Definition FormatInt (n : Z) : string := pretty n.

(** Number of line feeds in a string: the number of terminal lines that
    printing the string completes. *)
Fixpoint CountLF (s : string) : nat :=
  match s with
  | EmptyString => O
  | String c rest => ((if Ascii.eqb c LF then 1 else 0) + CountLF rest)%nat
  end.

(** Number of spaces at the end of a string. *)
Fixpoint leadingSpaces (l : list ascii) : nat :=
  match l with
  | c :: rest => if Ascii.eqb c " "%char then S (leadingSpaces rest) else O
  | [] => O
  end.

Definition TrailingSpaces (s : string) : nat :=
  leadingSpaces (List.rev (list_ascii_of_string s)).

(** [path.Split]: the path is cut right after its last slash; without a
    slash the directory is empty. *)
Fixpoint pathSplit (s : string) : string * string :=
  match s with
  | EmptyString => ("", "")
  | String c rest =>
      let '(dir, file) := pathSplit rest in
      if decide (dir = "") then
        if Ascii.eqb c "/"%char then (String c "", file) else ("", String c file)
      else (String c dir, file)
  end.

(** [encoding/hex]. Bytes are numbers below 256. *)
Definition fromHexChar (c : ascii) : option Z :=
  let n := Z.of_nat (nat_of_ascii c) in
  if (48 <=? n) && (n <=? 57) then Some (n - 48)
  else if (97 <=? n) && (n <=? 102) then Some (n - 97 + 10)
  else if (65 <=? n) && (n <=? 70) then Some (n - 65 + 10)
  else None.

(** The bytes that [hex.Decode] has written when it returns: it stops at
    the first character that is not a hexadecimal digit and at a dangling
    last character. *)
Fixpoint hexDecodeList (l : list ascii) : list Z :=
  match l with
  | a :: b :: rest =>
      match fromHexChar a, fromHexChar b with
      | Some x, Some y => (x * 16 + y) :: hexDecodeList rest
      | _, _ => []
      end
  | _ => []
  end.

(** The first result of [hex.DecodeString]; the error is the second. *)
Definition hexDecodeString (s : string) : list Z :=
  hexDecodeList (list_ascii_of_string s).

Definition hexDigit (n : Z) : ascii :=
  ascii_of_nat (Z.to_nat (if n <? 10 then 48 + n else 97 + n - 10)).

(** [hex.EncodeToString]. *)
Definition hexEncodeToString (bs : list Z) : string :=
  string_of_list_ascii
    (flat_map (fun b => [hexDigit (Z.shiftr b 4); hexDigit (Z.land b 15)]) bs).

End GoLib.

(** ** Package taskframework: the task printer (second version) *)

Module TaskFramework.
Import GoLib.

Definition TaskWait : Z := 0.
Definition TaskRun : Z := 1.
Definition TaskDone : Z := 2.
Definition TaskFail : Z := 3.

Record Spinner := mkSpinner {
  Frames : list string;
  frame : Z
}.

(** [Dot]; the [FPS] field only drives the ticker and is left out. *)
Definition Dot : Spinner :=
  {| Frames := ["⣾"; "⣽"; "⣻"; "⢿"; "⡿"; "⣟"; "⣯"; "⣷"]; frame := 0 |}.

(** [TaskInfo] is declared in another file of the package; the printer
    reads its three fields. *)
Record TaskInfo := mkTaskInfo {
  id : string;
  retry : Z;
  maxRetry : Z
}.

Record taskState := mkTaskState {
  info : TaskInfo;
  stat : Z;
  msg : string
}.

(** The messages of [updateChan]; [otherMsg] stands for a value of any
    other dynamic type (the [default] branch of [Update]). *)
Inductive Msg :=
| quitMsg
| spinnerMsg
| statMsg (id : string) (stat : Z)
| taskMsg (id : string) (msg : string)
| otherMsg.

(** The render state of [TaskPrinter]. [wg], [ticker] and [updateChan]
    belong to the event loop and are not part of it. [mask] is [None] for
    the nil slice. *)
Record TaskPrinter := mkTaskPrinter {
  spinner : Spinner;
  quit : bool;
  idMap : gmap string nat;
  tasks : list taskState;
  multiLineMsg : string;
  mask : option (list Z)
}.

Definition NewTaskPrinter : TaskPrinter :=
  {| spinner := Dot; quit := false; idMap := ∅; tasks := [];
     multiLineMsg := ""; mask := None |}.

Definition SetTaskInfo (i : TaskInfo) (p : TaskPrinter) : TaskPrinter :=
  {| spinner := spinner p; quit := quit p;
     idMap := <[id i := length (tasks p)]> (idMap p);
     tasks := tasks p ++ [{| info := i; stat := TaskWait; msg := "初始化..." |}];
     multiLineMsg := multiLineMsg p; mask := mask p |}.

Definition SpinnerUpdate (s : Spinner) : Spinner :=
  {| Frames := Frames s; frame := frame s + 1 |}.

(** [Spinner.String]: [s.Frames[s.frame%len(s.Frames)]]. Go panics when
    [Frames] is empty; the constructor installs the eight frames of [Dot]. *)
Definition SpinnerString (s : Spinner) : string :=
  nth (Z.to_nat (Z.rem (frame s) (Z.of_nat (length (Frames s))))) (Frames s) "".

Definition setStat (v : Z) (t : taskState) : taskState :=
  {| info := info t; stat := v; msg := msg t |}.

Definition setMsg (m : string) (t : taskState) : taskState :=
  {| info := info t; stat := stat t; msg := m |}.

Definition withTasks (ts : list taskState) (p : TaskPrinter) : TaskPrinter :=
  {| spinner := spinner p; quit := quit p; idMap := idMap p; tasks := ts;
     multiLineMsg := multiLineMsg p; mask := mask p |}.

(** [Update]. [p.tasks[i]] is written through the pointer stored in the
    slice; an index outside the slice (Go would panic) leaves the list as
    it is. *)
Definition Update (m : Msg) (p : TaskPrinter) : TaskPrinter :=
  match m with
  | quitMsg =>
      {| spinner := spinner p; quit := true; idMap := idMap p; tasks := tasks p;
         multiLineMsg := multiLineMsg p; mask := mask p |}
  | spinnerMsg =>
      {| spinner := SpinnerUpdate (spinner p); quit := quit p; idMap := idMap p;
         tasks := tasks p; multiLineMsg := multiLineMsg p; mask := mask p |}
  | statMsg vid vstat =>
      match idMap p !! vid with
      | Some i => withTasks (alter (setStat vstat) i (tasks p)) p
      | None => p
      end
  | taskMsg vid vmsg =>
      if Contains vmsg NL then
        {| spinner := spinner p; quit := quit p; idMap := idMap p; tasks := tasks p;
           multiLineMsg := "[" +:+ vid +:+ "] " +:+ vmsg; mask := mask p |}
      else
        match idMap p !! vid with
        | Some i => withTasks (alter (setMsg vmsg) i (tasks p)) p
        | None => p
        end
  | otherMsg => p
  end.

Section Render.

(** [runewidth.StringWidth], from the go-runewidth library. *)
Variable StringWidth : string -> Z.

(** The scroll-back block: [strings.Split(p.multiLineMsg, "\n")] when the
    message is not empty. *)
Definition scrollBack (p : TaskPrinter) : list string :=
  if decide (multiLineMsg p = "") then [] else SplitLF (multiLineMsg p).

(** One table row: the body of the loop over [p.tasks]. *)
Definition renderRow (sp : Spinner) (t : taskState) : string :=
  let s := "" in
  let s :=
    if stat t =? TaskWait then s +:+ "-"
    else if stat t =? TaskRun then s +:+ SpinnerString sp
    else if stat t =? TaskDone then s +:+ "√"
    else if stat t =? TaskFail then s +:+ "X"
    else s +:+ " " in
  let s := s +:+ (" [" +:+ id (info t) +:+ "]") in
  let s := if decide (msg t = "") then s else s +:+ (" " +:+ msg t) in
  let s :=
    if 0 <? retry (info t)
    then s +:+ (" (重试: " +:+ FormatInt (retry (info t)) +:+ "/"
                 +:+ FormatInt (maxRetry (info t)) +:+ ")")
    else s in
  s.

(** [strs] of [Render]. *)
Definition frameLines (p : TaskPrinter) : list string :=
  scrollBack p ++ "--------" :: map (renderRow (spinner p)) (tasks p).

(** ["\033[%dA"]. *)
Definition CursorUp (n : Z) : string :=
  String ESC ("[" +:+ FormatInt n +:+ "A").

(** The part of [buf] written by iteration [i] of the output loop. *)
Definition emitLine (old : list Z) (i : nat) (s : string) : string :=
  let l := StringWidth s in
  let pad :=
    match old !! i with
    | Some w => if l <? w + 4 then RepeatSpace (w - l + 4) else ""
    | None => ""
    end in
  s +:+ pad +:+ NL.

Definition emitLines (old : list Z) (strs : list string) : list string :=
  imap (emitLine old) strs.

(** The cursor movement at the start of [buf]. *)
Definition cursorPrefix (p : TaskPrinter) : string :=
  match mask p with
  | Some _ => CursorUp (Z.of_nat (length (tasks p)) + 1)
  | None => ""
  end.

(** [Render]: the text handed to [fmt.Print] and the printer afterwards. *)
Definition Render (p : TaskPrinter) : string * TaskPrinter :=
  let strs := frameLines p in
  let buf := "" in
  let buf := buf +:+ cursorPrefix p in
  let buf := buf +:+ String.concat "" (emitLines (default [] (mask p)) strs) in
  (buf,
   {| spinner := spinner p; quit := quit p; idMap := idMap p; tasks := tasks p;
      multiLineMsg := ""; mask := Some (map StringWidth strs) |}).

(** The printer after its first redraw and any number of events. *)
Definition afterEvents (p : TaskPrinter) (ms : list Msg) : TaskPrinter :=
  foldl (fun q m => Update m q) p ms.

(** What happens to a printer during a session: a task is registered, the
    loop of [Start] handles a message, or it redraws. *)
Inductive Action :=
| Register (i : TaskInfo)
| Handle (m : Msg)
| Redraw.

Definition perform (p : TaskPrinter) (a : Action) : TaskPrinter :=
  match a with
  | Register i => SetTaskInfo i p
  | Handle m => Update m p
  | Redraw => snd (Render p)
  end.

Definition session (acts : list Action) : TaskPrinter :=
  foldl perform NewTaskPrinter acts.

Definition registers (vid : string) (a : Action) : bool :=
  match a with
  | Register i => bool_decide (id i = vid)
  | _ => false
  end.

End Render.

(** A width function for examples with ASCII text, where the display
    width of a string is its length. *)
Definition asciiWidth (s : string) : Z := Z.of_nat (String.length s).

(** One registered task whose row shows [ok], and a pending two-line
    message of that task. *)
Definition oneTask : TaskPrinter :=
  Update (taskMsg "f1" "ok") (SetTaskInfo (mkTaskInfo "f1" 0 3) NewTaskPrinter).

Definition oneTaskTwoLines : TaskPrinter :=
  Update (taskMsg "f1" ("line1" +:+ NL +:+ "line2")) oneTask.

(** One registered task whose row shows a progress text. *)
Definition progressTask : TaskPrinter :=
  Update (taskMsg "f1" "50%/100% 1.0MB/s in 5s")
    (SetTaskInfo (mkTaskInfo "f1" 0 3) NewTaskPrinter).

End TaskFramework.


(** ** Package pcsupload: the upload task unit *)

Module PcsUpload.
Import GoLib.

(** *** Types of the collaborating packages *)

(** [pcserror.ErrType]: the two kinds that the task unit names;
    [ErrTypeOther] stands for every other kind (the [default] branches). *)
Inductive ErrType := ErrTypeRemoteError | ErrTypeNetError | ErrTypeOther.

(** A value of the interface [pcserror.Error], given by what its methods
    return; [GetErrorText] is [GetError().Error()]. *)
Record PcsError := mkPcsError {
  GetErrType : ErrType;
  GetRemoteErrCode : Z;
  GetErrorText : string
}.

(** A Go [error]: a [pcserror.Error], or an error of another type. *)
Inductive GoError :=
| Classified (e : PcsError)
| Unclassified (text : string).

(** [taskframework.TaskUnitRunResult]. *)
Record TaskUnitRunResult := mkResult {
  Succeed : bool;
  NeedRetry : bool;
  Err : option GoError;
  ResultMessage : string
}.

Definition emptyResult : TaskUnitRunResult :=
  {| Succeed := false; NeedRetry := false; Err := None; ResultMessage := "" |}.

(** [checksum.LocalFileMeta]; a nil byte slice is [None]. *)
Record LocalFileMeta := mkMeta {
  Path : string;
  Length : Z;
  MD5 : option (list Z);
  SliceMD5 : option (list Z);
  CRC32 : Z
}.

#[export] Instance LocalFileMeta_eq_dec : EqDecision LocalFileMeta.
Proof. solve_decision. Defined.

(** Modelled from the spec: [uploader.InstanceState], the resume state of a
    transfer, is opaque per-block progress; here the numbers of the blocks
    that are done. *)
Definition InstanceState := list Z.

(** An entry of a remote directory listing ([baidupcs.FileDirectory]); the
    task unit reads [Filename] and [MD5]. *)
Record FileDirectory := mkFd {
  fdFilename : string;
  fdMD5 : string
}.

(** [uploader.MultiUploaderConfig]. *)
Record MultiUploaderConfig := mkConfig {
  cfgParallel : Z;
  cfgBlockSize : Z;
  cfgMaxRate : Z;
  cfgPolicy : string
}.

(** Modelled from the spec: [baidupcs.MaxRapidUploadSize] is declared
    outside the task unit; the size ceiling is 20 GiB, as the message of
    [prepareFile] also says. *)
Definition MaxRapidUploadSize : Z := 20 * 1024 * 1024 * 1024.

(** [converter.MB], one mebibyte; it only decides whether [rapidUpload]
    prints a notice for a large file. *)
Definition MB : Z := 1024 * 1024.

Definition StrUploadFailed : string := "上传文件失败".
Definition DefaultPrintFormat : string := "↑ %s/%s %s/s in %s ............".

(** *** The checkpoint store *)

(** Modelled from the spec: the checkpoint store [UploadingDatabase] is
    declared in another file of the package. The specification gives its
    interface: find(identity) -> checkpoint?, upsert(identity, checkpoint),
    delete(identity), persist(). The store keeps one entry per file; an
    entry without resume state is a placeholder. [saved] is the persisted
    copy. *)
Record UploadingDatabase := mkDb {
  UploadingList : list (LocalFileMeta * option InstanceState);
  saved : list (LocalFileMeta * option InstanceState)
}.

(** Modelled from the spec: an entry belongs to a file when path and
    length agree. The hashes of an identity are computed lazily, so a new
    task unit for a file has none, and still finds the checkpoint of that
    file. *)
Definition sameFile (a b : LocalFileMeta) : bool :=
  bool_decide (Path a = Path b) && bool_decide (Length a = Length b).

Definition entryOf (meta : LocalFileMeta)
    (l : list (LocalFileMeta * option InstanceState))
  : option (LocalFileMeta * option InstanceState) :=
  List.find (fun e => sameFile (fst e) meta) l.

(** find: the resume state stored for the file, if any. *)
Definition Search (meta : LocalFileMeta) (d : UploadingDatabase) : option InstanceState :=
  match entryOf meta (UploadingList d) with
  | Some (_, st) => st
  | None => None
  end.

(** Modelled from the spec: find is called with a pointer to the identity,
    and [prepareFile] tests the MD5 of the identity after the call (its
    comment says that the md5 was read): the hashes cached in the entry of
    the file are read into an identity that has no MD5 yet. Hashes that
    the identity already has are kept. *)
Definition readHashes (meta : LocalFileMeta) (d : UploadingDatabase) : LocalFileMeta :=
  match entryOf meta (UploadingList d) with
  | Some (m, _) =>
      match MD5 meta, MD5 m with
      | None, Some _ =>
          {| Path := Path meta; Length := Length meta; MD5 := MD5 m;
             SliceMD5 := SliceMD5 m; CRC32 := CRC32 meta |}
      | _, _ => meta
      end
  | None => meta
  end.

Definition upsertEntry (meta : LocalFileMeta) (st : option InstanceState)
    (l : list (LocalFileMeta * option InstanceState))
  : list (LocalFileMeta * option InstanceState) :=
  match entryOf meta l with
  | Some _ => map (fun e => if sameFile (fst e) meta then (meta, st) else e) l
  | None => l ++ [(meta, st)]
  end.

(** upsert *)
Definition UpdateUploading (meta : LocalFileMeta) (st : option InstanceState)
    (d : UploadingDatabase) : UploadingDatabase :=
  {| UploadingList := upsertEntry meta st (UploadingList d); saved := saved d |}.

(** delete *)
Definition Delete (meta : LocalFileMeta) (d : UploadingDatabase) : UploadingDatabase :=
  {| UploadingList := List.filter (fun e => negb (sameFile (fst e) meta)) (UploadingList d);
     saved := saved d |}.

(** persist *)
Definition Save (d : UploadingDatabase) : UploadingDatabase :=
  {| UploadingList := UploadingList d; saved := UploadingList d |}.

(** *** The task unit *)

Inductive StepUpload := StepUploadInit | StepUploadRapidUpload | StepUploadUpload.

(** [UploadTaskUnit]. [LocalFileChecksum] is represented by its
    [LocalFileMeta]; [PCS], [UploadingDatabase] and [UploadStatistic] are
    pointers to shared objects and live in [State] and [World]; [printer]
    is the name of the injected callback, [None] when it is nil. *)
Record UploadTaskUnit := mkUnit {
  LocalFileChecksum : LocalFileMeta;
  Step : StepUpload;
  SavePath : string;
  PrintFormat : string;
  Parallel : Z;
  NoRapidUpload : bool;
  NoSplitFile : bool;
  Policy : string;
  printer : option string;
  panDir : string;
  panFile : string;
  state : option InstanceState
}.

Definition withStep (v : StepUpload) (u : UploadTaskUnit) : UploadTaskUnit :=
  {| LocalFileChecksum := LocalFileChecksum u; Step := v; SavePath := SavePath u;
     PrintFormat := PrintFormat u; Parallel := Parallel u;
     NoRapidUpload := NoRapidUpload u; NoSplitFile := NoSplitFile u;
     Policy := Policy u; printer := printer u; panDir := panDir u;
     panFile := panFile u; state := state u |}.

Definition withPan (d f : string) (u : UploadTaskUnit) : UploadTaskUnit :=
  {| LocalFileChecksum := LocalFileChecksum u; Step := Step u; SavePath := SavePath u;
     PrintFormat := PrintFormat u; Parallel := Parallel u;
     NoRapidUpload := NoRapidUpload u; NoSplitFile := NoSplitFile u;
     Policy := Policy u; printer := printer u; panDir := d;
     panFile := f; state := state u |}.

Definition withState (v : option InstanceState) (u : UploadTaskUnit) : UploadTaskUnit :=
  {| LocalFileChecksum := LocalFileChecksum u; Step := Step u; SavePath := SavePath u;
     PrintFormat := PrintFormat u; Parallel := Parallel u;
     NoRapidUpload := NoRapidUpload u; NoSplitFile := NoSplitFile u;
     Policy := Policy u; printer := printer u; panDir := panDir u;
     panFile := panFile u; state := v |}.

Definition withMeta (v : LocalFileMeta) (u : UploadTaskUnit) : UploadTaskUnit :=
  {| LocalFileChecksum := v; Step := Step u; SavePath := SavePath u;
     PrintFormat := PrintFormat u; Parallel := Parallel u;
     NoRapidUpload := NoRapidUpload u; NoSplitFile := NoSplitFile u;
     Policy := Policy u; printer := printer u; panDir := panDir u;
     panFile := panFile u; state := state u |}.

(** The task unit once the MD5 and the slice MD5 of the file are known. *)
Definition withHashes (md5 slicemd5 : list Z) (u : UploadTaskUnit) : UploadTaskUnit :=
  let m := LocalFileChecksum u in
  withMeta {| Path := Path m; Length := Length m; MD5 := Some md5;
              SliceMD5 := Some slicemd5; CRC32 := CRC32 m |} u.

(** *** Effects *)

(** An argument of a formatted message. [ASize n] is
    [converter.ConvertFileSize(n, 2)]. *)
Inductive Arg :=
| AStr (s : string)
| ASize (n : Z)
| ADuration (d : Z)
| AErr (e : GoError).

(** What a run does to the outside, in order. *)
Inductive Event :=
| EvStdout (format : string) (args : list Arg)
| EvPrinter (name : string) (format : string) (args : list Arg)
| EvOpenPath
| EvClose
| EvListDir (dir : string)
| EvSum
| EvRapidUpload (path md5 slicemd5 crc32 : string) (length : Z)
| EvDbSearch (meta : LocalFileMeta)
| EvDbUpdate (meta : LocalFileMeta) (st : option InstanceState)
| EvDbDelete (meta : LocalFileMeta)
| EvDbSave
| EvAddTotalSize (n : Z)
| EvExecute (cfg : MultiUploaderConfig) (seed : option InstanceState).

Definition isRapidUpload (e : Event) : bool :=
  match e with EvRapidUpload _ _ _ _ _ => true | _ => false end.

Definition isListDir (e : Event) : bool :=
  match e with EvListDir _ => true | _ => false end.

(** The events that only the rapid upload stage produces. *)
Definition isRapidStage (e : Event) : bool :=
  match e with EvListDir _ | EvSum | EvRapidUpload _ _ _ _ _ => true | _ => false end.

Definition isExecute (e : Event) : bool :=
  match e with EvExecute _ _ => true | _ => false end.

Definition isPrinter (e : Event) : bool :=
  match e with EvPrinter _ _ _ => true | _ => false end.

Definition isStdout (e : Event) : bool :=
  match e with EvStdout _ _ => true | _ => false end.

Definition isOutput (e : Event) : bool := isPrinter e || isStdout e.

(** One status event of the transfer: the four readings of
    [uploader.Status], whether a receive from [updateChan] can proceed at
    that moment, and what [muer.InstanceState()] returns then. *)
Record StatusTick := mkTick {
  Uploaded : Z;
  TotalSize : Z;
  SpeedsPerSecond : Z;
  TimeElapsed : Z;
  updateReady : bool;
  currentState : option InstanceState
}.

(** Modelled from the spec: the multipart-upload primitive
    ([uploader.MultiUploader]) is an event stream with status ticks that
    ends with the success callback or with the error callback. *)
Inductive TransferOutcome :=
| TransferSucceeds
| TransferFails (err : GoError).

(** What the collaborators answer during one run: the global settings,
    the local file, the storage client and the transfer. *)
Record World := mkWorld {
  IsVerbose : bool;
  MaxUploadRate : Z;
  openPathErr : option GoError;
  listResult : option (list FileDirectory) * option PcsError;
  sumResult : GoError + (list Z * list Z);
  rapidUploadResult : option PcsError;
  transferTicks : list StatusTick;
  transferOutcome : TransferOutcome
}.

(** The mutable objects a run works on. *)
Record State := mkState {
  utu : UploadTaskUnit;
  db : UploadingDatabase;
  out : list Event
}.

Definition M (A : Type) : Type := State -> A * State.

Definition ret {A : Type} (a : A) : M A := fun s => (a, s).

Definition bind {A B : Type} (m : M A) (k : A -> M B) : M B :=
  fun s => let '(a, s') := m s in k a s'.

#[export] Instance M_mret : MRet M := @ret.
#[export] Instance M_bind : MBind M := fun A B k m => bind m k.

Definition getUnit : M UploadTaskUnit := fun s => (utu s, s).

Definition modifyUnit (f : UploadTaskUnit -> UploadTaskUnit) : M unit :=
  fun s => (tt, {| utu := f (utu s); db := db s; out := out s |}).

Definition emit (e : Event) : M unit :=
  fun s => (tt, {| utu := utu s; db := db s; out := out s ++ [e] |}).

Definition modifyDb (f : UploadingDatabase -> UploadingDatabase) : M unit :=
  fun s => (tt, {| utu := utu s; db := f (db s); out := out s |}).

(** [UploadingDatabase.Search(&utu.LocalFileChecksum.LocalFileMeta)]: the
    state it returns; the hashes it reads are written through the pointer
    into the meta data of the task unit. *)
Definition dbSearch : M (option InstanceState) :=
  fun s =>
    let meta := LocalFileChecksum (utu s) in
    (Search meta (db s),
     {| utu := withMeta (readHashes meta (db s)) (utu s); db := db s;
        out := out s ++ [EvDbSearch meta] |}).

Definition dbUpdateUploading (meta : LocalFileMeta) (st : option InstanceState) : M unit :=
  emit (EvDbUpdate meta st) ;; modifyDb (UpdateUploading meta st).

Definition dbDelete (meta : LocalFileMeta) : M unit :=
  emit (EvDbDelete meta) ;; modifyDb (Delete meta).

Definition dbSave : M unit := emit EvDbSave ;; modifyDb Save.

Fixpoint forEach {A : Type} (l : list A) (body : A -> M unit) : M unit :=
  match l with
  | [] => mret tt
  | x :: rest => body x ;; forEach rest body
  end.

Section TaskUnit.

(** [path.Clean], from the Go library. *)
Variable pathClean : string -> string.

(** [getBlockSize], declared in another file of the package. *)
Variable getBlockSize : Z -> Z.

Variable w : World.

(** The event of one [utu.Printf]. *)
Definition printfEvent (u : UploadTaskUnit) (format : string) (args : list Arg) : Event :=
  match printer u with
  | Some name => if IsVerbose w then EvStdout format args else EvPrinter name format args
  | None => EvStdout format args
  end.

Definition Printf (format : string) (args : list Arg) : M unit :=
  u ← getUnit; emit (printfEvent u format args).

Definition prepareFile : M unit :=
  u ← getUnit;
  let '(dir, file) := pathSplit (SavePath u) in
  modifyUnit (withPan (pathClean dir) file) ;;
  st ← dbSearch;
  modifyUnit (withState st) ;;
  u ← getUnit;
  if bool_decide (st <> None) || bool_decide (MD5 (LocalFileChecksum u) <> None) then
    modifyUnit (withStep StepUploadUpload)
  else if NoRapidUpload u then
    modifyUnit (withStep StepUploadUpload)
  else if Length (LocalFileChecksum u) >? MaxRapidUploadSize then
    Printf "文件超过20GB, 无法使用秒传功能, 跳过秒传..." [] ;;
    modifyUnit (withStep StepUploadUpload)
  else
    modifyUnit (withStep StepUploadRapidUpload).

(** [LocalFileChecksum.Sum(CHECKSUM_MD5 | CHECKSUM_SLICE_MD5)]: the hashes
    are stored in the file's meta data. *)
Definition Sum : M (option GoError) :=
  emit EvSum ;;
  match sumResult w with
  | inl err => mret (Some err)
  | inr (md5, slicemd5) =>
      modifyUnit (withHashes md5 slicemd5) ;;
      mret None
  end.

(** The test of the loop over the listing in [rapidUpload]. *)
Definition sameRemoteFile (u : UploadTaskUnit) (fd : FileDirectory) : bool :=
  bool_decide (fdFilename fd = panFile u)
  && bool_decide (hexDecodeString (fdMD5 fd) = default [] (MD5 (LocalFileChecksum u))).

(** The first [switch] of [rapidUpload]: the result it returns for an
    error of the listing, [None] when it goes on. The remote code 31066
    (the directory does not exist) is not a failure. *)
Definition listFailure (pcsError : option PcsError) : option TaskUnitRunResult :=
  match pcsError with
  | None => None
  | Some e =>
      match GetErrType e with
      | ErrTypeRemoteError =>
          if GetRemoteErrCode e =? 31066 then None
          else Some {| Succeed := false; NeedRetry := false;
                       Err := Some (Classified e);
                       ResultMessage := "获取文件列表错误" |}
      | _ => Some {| Succeed := false; NeedRetry := true;
                     Err := Some (Classified e);
                     ResultMessage := "获取文件列表错误" |}
      end
  end.

(** The second [switch] of [rapidUpload]: the remote code 31112. *)
Definition exceedQuota (pcsError : PcsError) : bool :=
  match GetErrType pcsError with
  | ErrTypeRemoteError => GetRemoteErrCode pcsError =? 31112
  | _ => false
  end.

Definition rapidUpload : M (bool * TaskUnitRunResult) :=
  modifyUnit (withStep StepUploadRapidUpload) ;;
  let result := emptyResult in
  u ← getUnit;
  emit (EvListDir (panDir u)) ;;
  let '(fdl, pcsError) := listResult w in
  match listFailure pcsError with
  | Some r => mret (false, r)
  | None =>
      (if Length (LocalFileChecksum u) >=? 128 * MB
       then Printf "检测秒传中, 请稍候..." [] else mret tt) ;;
      err ← Sum;
      match err with
      | Some e =>
          mret (false, {| Succeed := false; NeedRetry := false; Err := Some e;
                          ResultMessage := "计算文件秒传信息错误" |})
      | None =>
          u ← getUnit;
          if existsb (sameRemoteFile u) (default [] fdl) then
            Printf "目标文件, %s, 已存在, 跳过..." [AStr (SavePath u)] ;;
            mret (false, {| Succeed := true; NeedRetry := false; Err := None;
                            ResultMessage := "" |})
          else
            let m := LocalFileChecksum u in
            emit (EvRapidUpload (SavePath u)
                    (hexEncodeToString (default [] (MD5 m)))
                    (hexEncodeToString (default [] (SliceMD5 m)))
                    (FormatInt (CRC32 m)) (Length m)) ;;
            match rapidUploadResult w with
            | None =>
                Printf "秒传成功, 保存到网盘路径: %s" [AStr (SavePath u)] ;;
                emit (EvAddTotalSize (Length m)) ;;
                mret (false, {| Succeed := true; NeedRetry := false; Err := None;
                                ResultMessage := "" |})
            | Some e =>
                if exceedQuota e then
                  mret (false, {| Succeed := false; NeedRetry := false; Err := None;
                                  ResultMessage := "秒传失败, 超出配额, 网盘容量已满" |})
                else
                  Printf "秒传失败, 开始上传文件..." [] ;;
                  dbUpdateUploading m None ;;
                  dbSave ;;
                  mret (true, result)
            end
      end
  end.

(** The callback given to [OnUploadStatusEvent]. *)
Definition onUploadStatusEvent (t : StatusTick) : M unit :=
  u ← getUnit;
  (if updateReady t then
     dbUpdateUploading (LocalFileChecksum u) (currentState t) ;;
     dbSave
   else mret tt) ;;
  Printf (PrintFormat u)
    [ASize (Uploaded t); ASize (TotalSize t); ASize (SpeedsPerSecond t);
     ADuration (TimeElapsed t)].

(** The events and the store of one status event, in closed form. *)
Definition tickEvents (u : UploadTaskUnit) (t : StatusTick) : list Event :=
  (if updateReady t
   then [EvDbUpdate (LocalFileChecksum u) (currentState t); EvDbSave] else [])
  ++ [printfEvent u (PrintFormat u)
        [ASize (Uploaded t); ASize (TotalSize t); ASize (SpeedsPerSecond t);
         ADuration (TimeElapsed t)]].

Definition tickDb (u : UploadTaskUnit) (d : UploadingDatabase) (t : StatusTick)
  : UploadingDatabase :=
  if updateReady t
  then Save (UpdateUploading (LocalFileChecksum u) (currentState t) d) else d.

(** The callback given to [OnSuccess]. *)
Definition onSuccess (result : TaskUnitRunResult) : M TaskUnitRunResult :=
  u ← getUnit;
  Printf "上传文件成功, 保存到网盘路径: %s" [AStr (SavePath u)] ;;
  emit (EvAddTotalSize (Length (LocalFileChecksum u))) ;;
  dbDelete (LocalFileChecksum u) ;;
  dbSave ;;
  mret {| Succeed := true; NeedRetry := NeedRetry result; Err := Err result;
         ResultMessage := ResultMessage result |}.

(** The callback given to [OnError]. *)
Definition onError (err : GoError) (result : TaskUnitRunResult) : M TaskUnitRunResult :=
  match err with
  | Unclassified _ =>
      mret {| Succeed := Succeed result; NeedRetry := NeedRetry result;
             Err := Some err; ResultMessage := "上传文件错误" |}
  | Classified pcsError =>
      let result := {| Succeed := Succeed result; NeedRetry := true;
                       Err := Err result; ResultMessage := ResultMessage result |} in
      match GetErrType pcsError with
      | ErrTypeRemoteError =>
          if GetRemoteErrCode pcsError =? 31363 then
            u ← getUnit;
            dbDelete (LocalFileChecksum u) ;;
            dbSave ;;
            mret {| Succeed := Succeed result; NeedRetry := NeedRetry result;
                   Err := Some (Unclassified "上传状态过期, 重新上传");
                   ResultMessage := StrUploadFailed |}
          else if GetRemoteErrCode pcsError =? 31061 then
            mret {| Succeed := Succeed result; NeedRetry := false;
                   Err := Some (Classified pcsError);
                   ResultMessage := StrUploadFailed |}
          else
            mret {| Succeed := Succeed result; NeedRetry := NeedRetry result;
                   Err := Some (Classified pcsError);
                   ResultMessage := StrUploadFailed |}
      | ErrTypeNetError =>
          let result := {| Succeed := Succeed result; NeedRetry := NeedRetry result;
                           Err := Some (Classified pcsError);
                           ResultMessage := StrUploadFailed |} in
          if Contains (GetErrorText pcsError) "413 Request Entity Too Large" then
            mret {| Succeed := Succeed result; NeedRetry := false;
                   Err := Err result; ResultMessage := ResultMessage result |}
          else mret result
      | ErrTypeOther =>
          mret {| Succeed := Succeed result; NeedRetry := false;
                 Err := Some (Classified pcsError);
                 ResultMessage := StrUploadFailed |}
      end
  end.

(** The configuration handed to [uploader.NewMultiUploader]. *)
Definition uploadConfig (u : UploadTaskUnit) : MultiUploaderConfig :=
  let blockSize :=
    if NoSplitFile u then Length (LocalFileChecksum u)
    else getBlockSize (Length (LocalFileChecksum u)) in
  {| cfgParallel := Parallel u; cfgBlockSize := blockSize;
     cfgMaxRate := MaxUploadRate w; cfgPolicy := Policy u |}.

(** [upload]: [muer.Execute()], started with the resume state of the task
    unit, delivers the status events and then calls one of the two final
    callbacks. *)
Definition upload : M TaskUnitRunResult :=
  modifyUnit (withStep StepUploadUpload) ;;
  u ← getUnit;
  let result := emptyResult in
  emit (EvExecute (uploadConfig u) (state u)) ;;
  forEach (transferTicks w) onUploadStatusEvent ;;
  match transferOutcome w with
  | TransferSucceeds => onSuccess result
  | TransferFails err => onError err result
  end.

(** [Run]; [None] is the nil result. *)
Definition Run : M (option TaskUnitRunResult) :=
  u ← getUnit;
  Printf "准备上传: %s" [AStr (Path (LocalFileChecksum u))] ;;
  emit EvOpenPath ;;
  match openPathErr w with
  | Some err =>
      Printf "文件不可读, 错误信息: %s, 跳过..." [AErr err] ;;
      mret None
  | None =>
      prepareFile ;;
      u ← getUnit;
      r ← match Step u with
          | StepUploadUpload => r ← upload; mret (Some r)
          | _ =>
              res ← rapidUpload;
              let '(isContinue, rapidResult) := (res : bool * TaskUnitRunResult) in
              if isContinue then r ← upload; mret (Some r)
              else mret (Some rapidResult)
          end;
      emit EvClose ;;
      mret r
  end.

End TaskUnit.

(** The deferred [LocalFileChecksum.Close] of [Run]. *)
Definition closeFile (s : State) : State :=
  {| utu := utu s; db := db s; out := out s ++ [EvClose] |}.

(** A run starts with the task unit, the checkpoint store and no event. *)
Definition start (u : UploadTaskUnit) (d : UploadingDatabase) : State :=
  {| utu := u; db := d; out := [] |}.

(** *** Example inputs *)

Definition exampleMeta : LocalFileMeta :=
  {| Path := "/home/u/a.bin"; Length := 1000; MD5 := None; SliceMD5 := None;
     CRC32 := 0 |}.

Definition exampleUnit : UploadTaskUnit :=
  {| LocalFileChecksum := exampleMeta; Step := StepUploadInit;
     SavePath := "/apps/x/a.bin"; PrintFormat := DefaultPrintFormat;
     Parallel := 4; NoRapidUpload := false; NoSplitFile := false;
     Policy := "fail"; printer := Some "f1"; panDir := ""; panFile := "";
     state := None |}.

Definition emptyDb : UploadingDatabase := {| UploadingList := []; saved := [] |}.

(** A store that holds resume state for the example file. *)
Definition resumeDb : UploadingDatabase :=
  {| UploadingList := [(exampleMeta, Some [0; 1])];
     saved := [(exampleMeta, Some [0; 1])] |}.

Definition exampleMD5 : list Z := hexDecodeString "d41d8cd98f00b204e9800998ecf8427e".

(** A store that holds the placeholder of the example file: its
    identity with the hashes of an earlier attempt and no resume state. *)
Definition placeholderDb : UploadingDatabase :=
  let m := {| Path := "/home/u/a.bin"; Length := 1000; MD5 := Some exampleMD5;
              SliceMD5 := Some [1; 2]; CRC32 := 0 |} in
  {| UploadingList := [(m, None)]; saved := [(m, None)] |}.

Definition exampleClean (s : string) : string := s.
Definition exampleBlockSize (n : Z) : Z := 4096.

Definition remoteError (code : Z) : PcsError :=
  {| GetErrType := ErrTypeRemoteError; GetRemoteErrCode := code;
     GetErrorText := "remote error" |}.

Definition netError (text : string) : PcsError :=
  {| GetErrType := ErrTypeNetError; GetRemoteErrCode := 0; GetErrorText := text |}.

Definition exampleTick (ready : bool) : StatusTick :=
  {| Uploaded := 512; TotalSize := 1000; SpeedsPerSecond := 256; TimeElapsed := 2;
     updateReady := ready; currentState := Some [0] |}.

(** The listing is empty, the hashes are computed, rapid upload answers
    [rapid] and the transfer ends with [outcome]. *)
Definition exampleWorld (verbose : bool) (listing : list FileDirectory)
    (rapid : option PcsError) (outcome : TransferOutcome) : World :=
  {| IsVerbose := verbose; MaxUploadRate := 0; openPathErr := None;
     listResult := (Some listing, None);
     sumResult := inr (exampleMD5, [1; 2]);
     rapidUploadResult := rapid;
     transferTicks := [exampleTick true; exampleTick false];
     transferOutcome := outcome |}.

End PcsUpload.

(** ** Package taskframework: the channel side of the task printer *)

Module TaskFrameworkLoop.
Import GoLib TaskFramework.

(** The loop of [GetPrintFunc] that removes the line feeds at the end of
    the message, one at a time; the list is the message backwards. *)
Fixpoint dropLeadingLF (l : list ascii) : list ascii :=
  match l with
  | c :: rest => if Ascii.eqb c LF then dropLeadingLF rest else l
  | [] => []
  end.

Definition stripTrailingLF (s : string) : string :=
  string_of_list_ascii (List.rev (dropLeadingLF (List.rev (list_ascii_of_string s)))).

(** The function returned by [GetPrintFunc id], applied to the text that
    [fmt.Sprintf(format, a...)] gives: the message it sends on
    [updateChan], [None] when it returns without sending. *)
Definition GetPrintFunc (vid : string) (text : string) : option Msg :=
  let m := stripTrailingLF text in
  if decide (m = "") then None else Some (taskMsg vid m).

(** A string of [k] line feeds. *)
Definition lineFeeds (k : nat) : string := string_of_list_ascii (repeat LF k).

(** [StatChange]: the message it sends. *)
Definition StatChange (vid : string) (vstat : Z) : Msg := statMsg vid vstat.

(** What the [select] of [Start] receives: a tick of the ticker or a
    message of [updateChan]. *)
Inductive LoopInput :=
| Tick
| Recv (m : Msg).

Section Loop.

Variable StringWidth : string -> Z.

(** [Start] over the inputs that arrive: the frames it prints, in order,
    and the printer when it returns or, at the end of the inputs, waits in
    [select]. Each turn redraws first; only a message of the channel is
    followed by the test of [quit]. *)
Fixpoint Start (inputs : list LoopInput) (p : TaskPrinter) : list string * TaskPrinter :=
  let '(buf, p1) := Render StringWidth p in
  match inputs with
  | [] => ([buf], p1)
  | Tick :: rest =>
      let '(bufs, p') := Start rest (Update spinnerMsg p1) in
      (buf :: bufs, p')
  | Recv m :: rest =>
      let p2 := Update m p1 in
      if quit p2 then ([buf], p2)
      else let '(bufs, p') := Start rest p2 in (buf :: bufs, p')
  end.

(** One turn of the loop without the test of [quit]. *)
Definition turn (p : TaskPrinter) (i : LoopInput) : TaskPrinter :=
  match i with
  | Tick => Update spinnerMsg (snd (Render StringWidth p))
  | Recv m => Update m (snd (Render StringWidth p))
  end.

End Loop.

(** Every id of [idMap] points to a row of [tasks], and that row carries
    the id. *)
Definition rowsBound (p : TaskPrinter) : Prop :=
  forall (vid : string) (i : nat),
    idMap p !! vid = Some i ->
    exists t, tasks p !! i = Some t /\ id (info t) = vid.

(** The inputs before the first quit message of the channel. *)
Definition isQuit (i : LoopInput) : bool :=
  match i with Recv quitMsg => true | _ => false end.

Fixpoint beforeQuit (inputs : list LoopInput) : list LoopInput :=
  match inputs with
  | [] => []
  | i :: rest => if isQuit i then [] else i :: beforeQuit rest
  end.

End TaskFrameworkLoop.

(** ** Package pcsupload: kinds of calls *)

Module PcsUploadCalls.
Import GoLib PcsUpload.

Definition isOpenPath (e : Event) : bool :=
  match e with EvOpenPath => true | _ => false end.

Definition isClose (e : Event) : bool :=
  match e with EvClose => true | _ => false end.

Definition isSum (e : Event) : bool :=
  match e with EvSum => true | _ => false end.

Definition isDbUpdate (e : Event) : bool :=
  match e with EvDbUpdate _ _ => true | _ => false end.

(** The calls that change the checkpoint store. *)
Definition isDbWrite (e : Event) : bool :=
  match e with EvDbUpdate _ _ | EvDbDelete _ | EvDbSave => true | _ => false end.

Definition isAddTotalSize (e : Event) : bool :=
  match e with EvAddTotalSize _ => true | _ => false end.

(** The calls of the stages: the listing, the hashing and the rapid
    upload of the rapid upload stage, and the start of the transfer. *)
Definition isStageCall (e : Event) : bool := isRapidStage e || isExecute e.

(** How often a kind of call occurs. *)
Definition count (f : Event -> bool) (l : list Event) : nat :=
  length (List.filter f l).

(** *** Example worlds *)

(** The answers of the collaborators, one by one; the transfer has the two
    status events of [exampleWorld]. *)
Definition worldOf (opened : option GoError)
    (listing : option (list FileDirectory) * option PcsError)
    (sums : GoError + (list Z * list Z)) (rapid : option PcsError)
    (outcome : TransferOutcome) : World :=
  {| IsVerbose := false; MaxUploadRate := 0; openPathErr := opened;
     listResult := listing; sumResult := sums; rapidUploadResult := rapid;
     transferTicks := [exampleTick true; exampleTick false];
     transferOutcome := outcome |}.

(** A store with resume state for another file. *)
Definition resumeDb0 : UploadingDatabase :=
  {| UploadingList := [(mkMeta "/home/u/b.bin" 7 None None 0, Some [0])];
     saved := [(mkMeta "/home/u/b.bin" 7 None None 0, Some [0])] |}.

(** The example unit with the hashes of its file already known. *)
Definition hashedUnit : UploadTaskUnit := withHashes exampleMD5 [1; 2] exampleUnit.

End PcsUploadCalls.

(** ** Package taskframework: the task printer with message histories

    The first version of the printer in the sources keeps, for every task,
    the list of the messages it received, and redraws from the loop of
    [Start], which holds the line count and the widths of the last frame in
    the locals [line] and [mask]. [Spinner], [TaskInfo] and the messages of
    the channel are the same as in the other version. *)

Module TaskFrameworkV1.
Import GoLib.

Record taskState := mkTaskState {
  info : TaskFramework.TaskInfo;
  stat : Z;
  msgs : list string
}.

(** [ticker] and [updateChan] belong to the event loop. *)
Record TaskPrinter := mkTaskPrinter {
  spinner : TaskFramework.Spinner;
  idMap : gmap string nat;
  tasks : list taskState;
  quit : bool
}.

Definition NewTaskPrinter : TaskPrinter :=
  {| spinner := TaskFramework.Dot; idMap := ∅; tasks := []; quit := false |}.

Definition SetTaskInfo (i : TaskFramework.TaskInfo) (p : TaskPrinter) : TaskPrinter :=
  {| spinner := spinner p;
     idMap := <[TaskFramework.id i := length (tasks p)]> (idMap p);
     tasks := tasks p ++ [{| info := i; stat := TaskFramework.TaskWait;
                              msgs := ["初始化..."] |}];
     quit := quit p |}.

(** [strings.ReplaceAll(s, "\n", "")]. *)
Fixpoint removeLF (s : string) : string :=
  match s with
  | EmptyString => EmptyString
  | String c rest => if Ascii.eqb c LF then removeLF rest else String c (removeLF rest)
  end.

(** The function returned by [GetPrintFunc id], applied to the text that
    [fmt.Sprintf(format, a...)] gives: the message it sends. *)
Definition GetPrintFunc (vid : string) (text : string) : TaskFramework.Msg :=
  TaskFramework.taskMsg vid (removeLF text).

Definition StatChange (vid : string) (vstat : Z) : TaskFramework.Msg :=
  TaskFramework.statMsg vid vstat.

Definition setStat (v : Z) (t : taskState) : taskState :=
  {| info := info t; stat := v; msgs := msgs t |}.

Definition addMsg (m : string) (t : taskState) : taskState :=
  {| info := info t; stat := stat t; msgs := msgs t ++ [m] |}.

Definition withTasks (ts : list taskState) (p : TaskPrinter) : TaskPrinter :=
  {| spinner := spinner p; idMap := idMap p; tasks := ts; quit := quit p |}.

(** [Update]. As in the other version, an index outside the slice (Go
    would panic) leaves the list as it is. *)
Definition Update (m : TaskFramework.Msg) (p : TaskPrinter) : TaskPrinter :=
  match m with
  | TaskFramework.quitMsg =>
      {| spinner := spinner p; idMap := idMap p; tasks := tasks p; quit := true |}
  | TaskFramework.spinnerMsg =>
      {| spinner := TaskFramework.SpinnerUpdate (spinner p); idMap := idMap p;
         tasks := tasks p; quit := quit p |}
  | TaskFramework.statMsg vid vstat =>
      match idMap p !! vid with
      | Some i => withTasks (alter (setStat vstat) i (tasks p)) p
      | None => p
      end
  | TaskFramework.taskMsg vid vmsg =>
      match idMap p !! vid with
      | Some i =>
          if decide (vmsg = "") then p
          else withTasks (alter (addMsg vmsg) i (tasks p)) p
      | None => p
      end
  | TaskFramework.otherMsg => p
  end.

(** One table row: the body of the loop of [Render]. *)
Definition renderRow (sp : TaskFramework.Spinner) (t : taskState) : string :=
  let s := "" in
  let s :=
    if stat t =? TaskFramework.TaskWait then s +:+ "-"
    else if stat t =? TaskFramework.TaskRun then s +:+ TaskFramework.SpinnerString sp
    else if stat t =? TaskFramework.TaskDone then s +:+ "√"
    else if stat t =? TaskFramework.TaskFail then s +:+ "X"
    else s +:+ " " in
  let s := s +:+ (" [" +:+ TaskFramework.id (info t) +:+ "]") in
  let s :=
    if (0 <? length (msgs t))%nat then s +:+ (" " +:+ List.last (msgs t) "")
    else s in
  let s :=
    if 0 <? TaskFramework.retry (info t)
    then s +:+ (" (重试: " +:+ FormatInt (TaskFramework.retry (info t)) +:+ "/"
                 +:+ FormatInt (TaskFramework.maxRetry (info t)) +:+ ")")
    else s in
  s.

(** [Render]: the lines of the frame. *)
Definition Render (p : TaskPrinter) : list string :=
  ">>> 任务开始：" :: map (renderRow (spinner p)) (tasks p).

(** [LineMoveUp] and [LineMoveDown]: the text they print. *)
Definition LineMoveUp (n : Z) : string :=
  String ESC ("[" +:+ FormatInt n +:+ "A").

Definition LineMoveDown (n : Z) : string :=
  String ESC ("[" +:+ FormatInt n +:+ "B").

(** [HideCursor] and [ShowCursor]. *)
Definition HideCursor : string := String ESC "[?25l".
Definition ShowCursor : string := String ESC "[?25h".

Definition msgOf (i : TaskFrameworkLoop.LoopInput) : TaskFramework.Msg :=
  match i with
  | TaskFrameworkLoop.Tick => TaskFramework.spinnerMsg
  | TaskFrameworkLoop.Recv m => m
  end.

(** The printer after a list of events. *)
Definition afterEvents (p : TaskPrinter) (ms : list TaskFramework.Msg) : TaskPrinter :=
  foldl (fun q m => Update m q) p ms.

Section Loop.

Variable StringWidth : string -> Z.

(** What one turn of the loop of [Start] prints for the frame [strs]: the
    cursor movement, and for every line the text of the three print calls
    (the line, the padding, the line feed). *)
Definition redraw (line : Z) (mask : list Z) (strs : list string) : list string :=
  (if 0 <? line then [LineMoveUp line] else [])
  ++ TaskFramework.emitLines StringWidth mask strs.

(** The [for] loop of [Start] over the inputs that arrive, from the test
    of [p.quit]: the texts printed, the printer and the local [line] when
    the loop is left or, at the end of the inputs, waits in [select]. *)
Fixpoint loop (inputs : list TaskFrameworkLoop.LoopInput) (p : TaskPrinter)
    (line : Z) (mask : list Z) : list string * TaskPrinter * Z :=
  if quit p then ([], p, line)
  else
    match inputs with
    | [] => ([], p, line)
    | i :: rest =>
        let p1 := Update (msgOf i) p in
        let strs := Render p1 in
        let '(outs, p', line') :=
          loop rest p1 (Z.of_nat (length strs)) (map StringWidth strs) in
        (redraw line mask strs ++ outs, p', line')
    end.

(** [Start]: the first frame is printed with [fmt.Println]; the cursor is
    moved down when the loop was left. *)
Definition Start (inputs : list TaskFrameworkLoop.LoopInput) (p : TaskPrinter)
    : list string * TaskPrinter :=
  let strs := Render p in
  let first := map (fun s => s +:+ NL) strs in
  let '(outs, p', line) :=
    loop inputs p (Z.of_nat (length strs)) (map StringWidth strs) in
  let down :=
    if quit p' then (if 0 <? line then [LineMoveDown line] else []) else [] in
  (first ++ outs ++ down, p').

(** The texts of redraw number [k]: the frame after [k + 1] events,
    padded against the widths of the frame after [k] events. *)
Definition redrawAt (p : TaskPrinter) (ms : list TaskFramework.Msg) (k : nat) : list string :=
  LineMoveUp (Z.of_nat (length (tasks p)) + 1)
  :: TaskFramework.emitLines StringWidth
       (map StringWidth (Render (afterEvents p (take k ms))))
       (Render (afterEvents p (take (S k) ms))).

End Loop.

(** The events that reach row [i] of a printer: the texts appended to its
    history and its status afterwards. *)
Definition sentTo (p : TaskPrinter) (i : nat) (m : TaskFramework.Msg) : option string :=
  match m with
  | TaskFramework.taskMsg vid vmsg =>
      if bool_decide (idMap p !! vid = Some i) && negb (bool_decide (vmsg = ""))
      then Some vmsg else None
  | _ => None
  end.

Definition statAfter (p : TaskPrinter) (i : nat) (s : Z) (m : TaskFramework.Msg) : Z :=
  match m with
  | TaskFramework.statMsg vid vstat =>
      if bool_decide (idMap p !! vid = Some i) then vstat else s
  | _ => s
  end.

(** The inputs that the loop handles: up to the first quit message of the
    channel, which is handled too. *)
Fixpoint uptoQuit (inputs : list TaskFrameworkLoop.LoopInput)
    : list TaskFrameworkLoop.LoopInput :=
  match inputs with
  | [] => []
  | i :: rest => if TaskFrameworkLoop.isQuit i then [i] else i :: uptoQuit rest
  end.

(** Two registered tasks. *)
Definition twoTasks : TaskPrinter :=
  SetTaskInfo (TaskFramework.mkTaskInfo "f2" 1 3)
    (SetTaskInfo (TaskFramework.mkTaskInfo "f1" 0 3) NewTaskPrinter).

End TaskFrameworkV1.
(** ** Properties of the task printer *)

Module TaskFrameworkFacts.
Import GoLib TaskFramework.

Lemma Update_mask (m : Msg) (p : TaskPrinter) : mask (Update m p) = mask p.
Proof.
  destruct m as [ | | vid vstat | vid vmsg | ]; simpl; try reflexivity.
  - destruct (idMap p !! vid); reflexivity.
  - destruct (Contains vmsg NL); [reflexivity|].
    destruct (idMap p !! vid); reflexivity.
Qed.

Lemma Update_tasks_length (m : Msg) (p : TaskPrinter) :
  length (tasks (Update m p)) = length (tasks p).
Proof.
  destruct m as [ | | vid vstat | vid vmsg | ]; simpl; try reflexivity.
  - destruct (idMap p !! vid); simpl; [apply length_alter|reflexivity].
  - destruct (Contains vmsg NL); [reflexivity|].
    destruct (idMap p !! vid); simpl; [apply length_alter|reflexivity].
Qed.

Lemma afterEvents_mask (ms : list Msg) (p : TaskPrinter) :
  mask (afterEvents p ms) = mask p.
Proof.
  revert p. induction ms as [|m ms IH]; intros p; simpl; [reflexivity|].
  rewrite IH. apply Update_mask.
Qed.

Lemma afterEvents_tasks_length (ms : list Msg) (p : TaskPrinter) :
  length (tasks (afterEvents p ms)) = length (tasks p).
Proof.
  revert p. induction ms as [|m ms IH]; intros p; simpl; [reflexivity|].
  rewrite IH. apply Update_tasks_length.
Qed.

Section Redraw.

Variable StringWidth : string -> Z.

Lemma Render_buf (p : TaskPrinter) :
  fst (Render StringWidth p)
  = cursorPrefix p +:+ String.concat "" (emitLines StringWidth (default [] (mask p)) (frameLines p)).
Proof. reflexivity. Qed.

Lemma Render_mask (p : TaskPrinter) :
  mask (snd (Render StringWidth p)) = Some (map StringWidth (frameLines p)).
Proof. reflexivity. Qed.

Lemma Render_tasks (p : TaskPrinter) : tasks (snd (Render StringWidth p)) = tasks p.
Proof. reflexivity. Qed.

Lemma frameLines_length (p : TaskPrinter) :
  length (frameLines p) = (length (scrollBack p) + S (length (tasks p)))%nat.
Proof. unfold frameLines. rewrite length_app. simpl. by rewrite length_map. Qed.

Lemma list_ascii_of_string_app (s t : string) :
  list_ascii_of_string (s +:+ t) = list_ascii_of_string s ++ list_ascii_of_string t.
Proof. induction s as [|c s IH]; simpl; [reflexivity|]. by rewrite IH. Qed.

Lemma leadingSpaces_repeat (k : nat) (l : list ascii) :
  (k <= leadingSpaces (repeat " "%char k ++ l))%nat.
Proof. induction k as [|k IH]; simpl; lia. Qed.

Lemma rev_repeat_space (k : nat) :
  List.rev (repeat " "%char k) = repeat " "%char k.
Proof.
  induction k as [|k IH]; simpl; [reflexivity|].
  rewrite IH. clear IH. induction k as [|k IH]; simpl; [reflexivity|]. by rewrite IH.
Qed.

(** A line padded by [RepeatSpace n] ends with at least [n] spaces. *)
Lemma TrailingSpaces_pad (s : string) (n : Z) :
  (Z.to_nat n <= TrailingSpaces (s +:+ RepeatSpace n))%nat.
Proof.
  unfold TrailingSpaces, RepeatSpace.
  rewrite list_ascii_of_string_app, list_ascii_of_string_of_list_ascii.
  rewrite List.rev_app_distr, rev_repeat_space.
  apply leadingSpaces_repeat.
Qed.

(** The mask seen by a redraw that follows a redraw of [p] and any events. *)
Lemma mask_after_redraw (p : TaskPrinter) (ms : list Msg) :
  mask (afterEvents (snd (Render StringWidth p)) ms) = Some (map StringWidth (frameLines p)).
Proof. by rewrite afterEvents_mask, Render_mask. Qed.

(** An id that no action of a session registers is not in [idMap]. *)
Lemma session_unregistered (acts : list Action) (vid : string) :
  existsb (registers vid) acts = false ->
  idMap (session StringWidth acts) !! vid = None.
Proof.
  unfold session. generalize (lookup_empty (M := gmap string) (A := nat) vid).
  change (∅ : gmap string nat) with (idMap NewTaskPrinter).
  generalize NewTaskPrinter.
  induction acts as [|a acts IH]; intros p Hp Hacts; simpl in *; [exact Hp|].
  apply orb_false_elim in Hacts as [Ha Hacts].
  apply IH; [|exact Hacts].
  destruct a as [i|m|]; simpl in *.
  - apply bool_decide_eq_false in Ha. by rewrite lookup_insert_ne.
  - destruct m as [ | | v st | v mm | ]; simpl; try exact Hp.
    + by destruct (idMap p !! v).
    + destruct (Contains mm NL); [exact Hp|]. by destruct (idMap p !! v).
  - exact Hp.
Qed.

(** C8, as amended. On every redraw that follows an earlier redraw (and any
    events handled in between) the text starts with a cursor-up sequence
    whose count is the height of the table: one separator line and one row
    per registered task. That is the line count of the previous frame
    minus the scroll-back lines that frame contained. *)
Theorem render_cursor_up_table_height (p : TaskPrinter) (ms : list Msg) :
  let p' := afterEvents (snd (Render StringWidth p)) ms in
  let up := Z.of_nat (length (tasks p')) + 1 in
  fst (Render StringWidth p')
  = CursorUp up
    +:+ String.concat ""
          (emitLines StringWidth (map StringWidth (frameLines p)) (frameLines p'))
  /\ up = Z.of_nat (length (frameLines p)) - Z.of_nat (length (scrollBack p)).
Proof.
  intros p' up. split.
  - rewrite Render_buf. unfold cursorPrefix.
    subst p'. rewrite mask_after_redraw. reflexivity.
  - subst up p'. rewrite afterEvents_tasks_length, Render_tasks, frameLines_length. lia.
Qed.

(** The padding of a redraw goes by the index in the list of lines: a
    line whose index had width [W] in the previous frame's list of lines
    and whose new text has width [W' < W] is written as the new text, then
    [W - W' + 4] spaces, then a line feed. The index counts the scroll-back
    lines of either frame, so it is the screen row only when neither frame
    has any. *)
Lemma render_pads_same_index
    (p : TaskPrinter) (ms : list Msg) (i : nat) (s1 s2 : string) :
  let p' := afterEvents (snd (Render StringWidth p)) ms in
  frameLines p !! i = Some s1 ->
  frameLines p' !! i = Some s2 ->
  StringWidth s2 < StringWidth s1 ->
  exists pad : string,
    emitLines StringWidth (default [] (mask p')) (frameLines p') !! i
    = Some (s2 +:+ pad +:+ NL)
    /\ pad = RepeatSpace (StringWidth s1 - StringWidth s2 + 4)
    /\ StringWidth s1 - StringWidth s2 + 4 <= Z.of_nat (TrailingSpaces (s2 +:+ pad))
    /\ fst (Render StringWidth p')
       = cursorPrefix p'
         +:+ String.concat ""
               (emitLines StringWidth (default [] (mask p')) (frameLines p')).
Proof.
  intros p' H1 H2 Hlt.
  exists (RepeatSpace (StringWidth s1 - StringWidth s2 + 4)).
  split; [|split; [reflexivity|split]].
  - subst p'. rewrite mask_after_redraw. simpl default.
    unfold emitLines. rewrite list_lookup_imap, H2. simpl.
    unfold emitLine. rewrite list_lookup_fmap, H1. simpl.
    destruct (Z.ltb_spec (StringWidth s2) (StringWidth s1 + 4)) as [_|Hge]; [reflexivity|lia].
  - pose proof (TrailingSpaces_pad s2 (StringWidth s1 - StringWidth s2 + 4)). lia.
  - apply Render_buf.
Qed.

End Redraw.

(** C8, as stated, fails. The first frame of [oneTaskTwoLines] prints four
    lines (two of them scroll-back); the next redraw moves the cursor up by
    two lines, not four. *)
Lemma render_cursor_up_not_previous_line_count :
  let r1 := Render asciiWidth oneTaskTwoLines in
  let r2 := Render asciiWidth (snd r1) in
  length (frameLines oneTaskTwoLines) = 4%nat
  /\ CountLF (fst r1) = 4%nat
  /\ String.prefix (CursorUp 4) (fst r2) = false
  /\ String.prefix (CursorUp 2) (fst r2) = true.
Proof. vm_compute. repeat split. Qed.

(** C9 fails after a frame with scroll-back lines. The redraws are those
    of [Start]: the table, then a two-line message, then the message
    [ok] for the task. The second frame prints four lines, the row of the
    task last, with the text of width 29, and leaves the widths
    [10; 5; 8; 29] in [mask]. The third frame moves the cursor up by two,
    onto the separator and that row, and writes the row [- [f1] ok] of
    width 9 against [mask[1] = 5], the width of a scroll-back line: no
    space follows the text, and the end of the former row text stays on
    the screen. *)
Lemma render_row_not_erased_after_scroll_back :
  let r1 := Render asciiWidth progressTask in
  let p1 := Update (taskMsg "f1" ("line1" +:+ NL +:+ "line2")) (snd r1) in
  let r2 := Render asciiWidth p1 in
  let p2 := Update (taskMsg "f1" "ok") (snd r2) in
  let r3 := Render asciiWidth p2 in
  frameLines p1 = ["[f1] line1"; "line2"; "--------"; "- [f1] 50%/100% 1.0MB/s in 5s"]
  /\ asciiWidth "- [f1] 50%/100% 1.0MB/s in 5s" = 29
  /\ mask p2 = Some [10; 5; 8; 29]
  /\ frameLines p2 = ["--------"; "- [f1] ok"]
  /\ asciiWidth "- [f1] ok" = 9
  /\ fst r3
     = CursorUp 2 +:+ "--------" +:+ RepeatSpace 6 +:+ NL +:+ "- [f1] ok" +:+ NL
  /\ TrailingSpaces "- [f1] ok" = 0%nat.
Proof. vm_compute. repeat split. Qed.

(** C10. A status change, or a message without a line feed, for an id that
    is not in [idMap] leaves the printer as it was. *)
Theorem update_unregistered_id_unchanged (p : TaskPrinter) (vid : string) :
  idMap p !! vid = None ->
  (forall vstat : Z, Update (statMsg vid vstat) p = p)
  /\ (forall vmsg : string, Contains vmsg NL = false -> Update (taskMsg vid vmsg) p = p).
Proof.
  intros Hnone. split.
  - intros vstat. simpl. by rewrite Hnone.
  - intros vmsg Hsingle. simpl. by rewrite Hsingle, Hnone.
Qed.

Lemma update_unregistered_id_unchanged_witness :
  idMap oneTask !! "f2" = None
  /\ (forall vstat : Z, Update (statMsg "f2" vstat) oneTask = oneTask)
  /\ (forall vmsg : string,
        Contains vmsg NL = false -> Update (taskMsg "f2" vmsg) oneTask = oneTask).
Proof.
  split; [reflexivity|].
  apply (update_unregistered_id_unchanged oneTask "f2"). reflexivity.
Defined.

(** The rows of the scenario of the specification: a registered task that
    runs, reports progress and is done. *)
Example row_running :
  map (renderRow Dot)
    (tasks (session asciiWidth
              [Register (mkTaskInfo "f1" 0 3); Handle (statMsg "f1" TaskRun);
               Handle (taskMsg "f1" "50%/100% 1.0MB/s in 5s")]))
  = ["⣾ [f1] 50%/100% 1.0MB/s in 5s"].
Proof. reflexivity. Qed.

Example row_done :
  map (renderRow Dot)
    (tasks (session asciiWidth
              [Register (mkTaskInfo "f1" 0 3); Handle (statMsg "f1" TaskRun);
               Handle (taskMsg "f1" "50%/100% 1.0MB/s in 5s");
               Handle (statMsg "f1" TaskDone)]))
  = ["√ [f1] 50%/100% 1.0MB/s in 5s"].
Proof. reflexivity. Qed.

(** The two frames of [oneTaskTwoLines], byte for byte. *)
Example two_frames :
  let r1 := Render asciiWidth oneTaskTwoLines in
  fst r1 = "[f1] line1" +:+ NL +:+ "line2" +:+ NL +:+ "--------" +:+ NL
           +:+ "- [f1] ok" +:+ NL
  /\ fst (Render asciiWidth (snd r1))
     = String ESC "[2A" +:+ "--------      " +:+ NL +:+ "- [f1] ok" +:+ NL.
Proof. split; reflexivity. Qed.

End TaskFrameworkFacts.

(** ** Properties of the upload task unit *)

Module PcsUploadFacts.
Import GoLib PcsUpload.

(** Unfolding of the state monad. *)
Ltac run_monad :=
  repeat (unfold mbind, M_bind, bind, mret, M_mret, ret, getUnit, modifyUnit,
            modifyDb, emit, dbSearch, dbUpdateUploading, dbDelete, dbSave, Printf;
          cbn [fst snd utu db out]).

(** Which events a [Printf] and the status events can be. *)
Lemma printfEvent_rapid_stage (w : World) u f a : isRapidStage (printfEvent w u f a) = false.
Proof. unfold printfEvent. destruct (printer u); [destruct (IsVerbose w)|]; reflexivity. Qed.

Lemma printfEvent_execute (w : World) u f a : isExecute (printfEvent w u f a) = false.
Proof. unfold printfEvent. destruct (printer u); [destruct (IsVerbose w)|]; reflexivity. Qed.

Lemma tickEvents_rapid_stage (w : World) u ticks :
  existsb isRapidStage (flat_map (tickEvents w u) ticks) = false.
Proof.
  induction ticks as [|t ticks IH]; simpl; [reflexivity|].
  rewrite existsb_app, IH. unfold tickEvents.
  destruct (updateReady t); simpl; by rewrite printfEvent_rapid_stage.
Qed.

Lemma printfEvent_rapid_upload (w : World) u f a : isRapidUpload (printfEvent w u f a) = false.
Proof. unfold printfEvent. destruct (printer u); [destruct (IsVerbose w)|]; reflexivity. Qed.

Lemma existsb_weaken (f g : Event -> bool) (l : list Event) :
  (forall e, f e = true -> g e = true) -> existsb g l = false -> existsb f l = false.
Proof.
  intros Hfg. induction l as [|e l IH]; simpl; [reflexivity|].
  intros [Hg Hl]%orb_false_elim. rewrite (IH Hl), orb_false_r.
  destruct (f e) eqn:Hf; [|reflexivity]. by rewrite (Hfg e Hf) in Hg.
Qed.

Lemma isRapidUpload_stage e : isRapidUpload e = true -> isRapidStage e = true.
Proof. by destruct e. Qed.

Lemma isListDir_stage e : isListDir e = true -> isRapidStage e = true.
Proof. by destruct e. Qed.

(** Rewriting of [existsb] over the event lists of the stages. *)
Ltac event_scan :=
  cbn [closeFile out fst snd];
  rewrite ?existsb_app; cbn [existsb app];
  rewrite ?printfEvent_rapid_stage, ?printfEvent_execute, ?printfEvent_rapid_upload,
    ?tickEvents_rapid_stage;
  cbn [isRapidStage isExecute isRapidUpload orb];
  repeat match goal with H : existsb _ _ = false |- _ => rewrite H end;
  cbn [orb].

Section Effects.

Variable w : World.

Lemma onUploadStatusEvent_run (t : StatusTick) u d o :
  onUploadStatusEvent w t (mkState u d o)
  = (tt, mkState u (tickDb u d t) (o ++ tickEvents w u t)).
Proof.
  unfold onUploadStatusEvent, tickDb, tickEvents. run_monad.
  destruct (updateReady t); run_monad; [|reflexivity].
  by rewrite <- !app_assoc.
Qed.

Lemma forEach_ticks_run (ticks : list StatusTick) u d o :
  forEach ticks (onUploadStatusEvent w) (mkState u d o)
  = (tt, mkState u (foldl (tickDb u) d ticks) (o ++ flat_map (tickEvents w u) ticks)).
Proof.
  revert d o. induction ticks as [|t ticks IH]; intros d o; simpl.
  - by rewrite app_nil_r.
  - run_monad. rewrite onUploadStatusEvent_run, IH. by rewrite <- app_assoc.
Qed.

(** [upload] in closed form. *)
Lemma upload_run (getBlockSize : Z -> Z) u d o :
  let u' := withStep StepUploadUpload u in
  let s1 := mkState u' (foldl (tickDb u') d (transferTicks w))
              (o ++ EvExecute (uploadConfig getBlockSize w u') (state u)
                   :: flat_map (tickEvents w u') (transferTicks w)) in
  upload getBlockSize w (mkState u d o)
  = match transferOutcome w with
    | TransferSucceeds => onSuccess w emptyResult s1
    | TransferFails err => onError err emptyResult s1
    end.
Proof.
  intros u' s1. unfold upload. run_monad.
  rewrite forEach_ticks_run. subst s1.
  rewrite <- app_assoc. by destruct (transferOutcome w).
Qed.

Lemma onSuccess_run (r : TaskUnitRunResult) u d o :
  onSuccess w r (mkState u d o)
  = ({| Succeed := true; NeedRetry := NeedRetry r; Err := Err r;
        ResultMessage := ResultMessage r |},
     mkState u (Save (Delete (LocalFileChecksum u) d))
       (o ++ [printfEvent w u "上传文件成功, 保存到网盘路径: %s" [AStr (SavePath u)];
              EvAddTotalSize (Length (LocalFileChecksum u));
              EvDbDelete (LocalFileChecksum u); EvDbSave])).
Proof. unfold onSuccess. run_monad. by rewrite <- !app_assoc. Qed.

(** [rapidUpload] in closed form. *)
Lemma rapidUpload_run u d o :
  rapidUpload w (mkState u d o) =
  let u1 := withStep StepUploadRapidUpload u in
  let o1 := o ++ [EvListDir (panDir u)] in
  match listFailure (snd (listResult w)) with
  | Some r => ((false, r), mkState u1 d o1)
  | None =>
    let o2 := o1 ++ (if Length (LocalFileChecksum u) >=? 128 * MB
                     then [printfEvent w u1 "检测秒传中, 请稍候..." []] else [])
                 ++ [EvSum] in
    match sumResult w with
    | inl e =>
        ((false, {| Succeed := false; NeedRetry := false; Err := Some e;
                    ResultMessage := "计算文件秒传信息错误" |}),
         mkState u1 d o2)
    | inr (md5, sl) =>
      let u2 := withHashes md5 sl u1 in
      let m := LocalFileChecksum u2 in
      if existsb (sameRemoteFile u2) (default [] (fst (listResult w))) then
        ((false, {| Succeed := true; NeedRetry := false; Err := None;
                    ResultMessage := "" |}),
         mkState u2 d
           (o2 ++ [printfEvent w u2 "目标文件, %s, 已存在, 跳过..." [AStr (SavePath u)]]))
      else
        let o3 := o2 ++ [EvRapidUpload (SavePath u) (hexEncodeToString md5)
                           (hexEncodeToString sl) (FormatInt (CRC32 m)) (Length m)] in
        match rapidUploadResult w with
        | None =>
            ((false, {| Succeed := true; NeedRetry := false; Err := None;
                        ResultMessage := "" |}),
             mkState u2 d
               (o3 ++ [printfEvent w u2 "秒传成功, 保存到网盘路径: %s" [AStr (SavePath u)];
                       EvAddTotalSize (Length m)]))
        | Some e =>
            if exceedQuota e then
              ((false, {| Succeed := false; NeedRetry := false; Err := None;
                          ResultMessage := "秒传失败, 超出配额, 网盘容量已满" |}),
               mkState u2 d o3)
            else
              ((true, emptyResult),
               mkState u2 (Save (UpdateUploading m None d))
                 (o3 ++ [printfEvent w u2 "秒传失败, 开始上传文件..." [];
                         EvDbUpdate m None; EvDbSave]))
        end
    end
  end.
Proof.
  unfold rapidUpload. run_monad.
  destruct (listResult w) as [fdl pcsError]. cbn [fst snd].
  destruct (listFailure pcsError) as [r|]; [reflexivity|].
  cbn zeta.
  assert (Hsum : forall u' d' o',
    Sum w (mkState u' d' o')
    = match sumResult w with
      | inl e => (Some e, mkState u' d' (o' ++ [EvSum]))
      | inr (md5, sl) => (None, mkState (withHashes md5 sl u') d' (o' ++ [EvSum]))
      end).
  { intros. unfold Sum. run_monad. by destruct (sumResult w) as [e|[md5 sl]]. }
  run_monad.
  destruct (Length (LocalFileChecksum (withStep StepUploadRapidUpload u)) >=? 128 * MB) eqn:Hbig;
    cbn [withStep LocalFileChecksum] in Hbig; rewrite Hbig; run_monad; rewrite Hsum;
    destruct (sumResult w) as [e|[md5 sl]]; run_monad;
    rewrite <- ?app_assoc; try reflexivity.
  all: match goal with |- context [existsb ?f ?l] => destruct (existsb f l) end;
    run_monad; rewrite <- ?app_assoc; try reflexivity.
  all: destruct (rapidUploadResult w) as [e|]; run_monad; rewrite <- ?app_assoc; try reflexivity.
  all: destruct (exceedQuota e); run_monad; rewrite <- ?app_assoc; try reflexivity.
Qed.

Lemma onError_run err r u d o :
  exists evs d',
    snd (onError err r (mkState u d o)) = mkState u d' (o ++ evs)
    /\ existsb isRapidStage evs = false.
Proof.
  destruct err as [e|text]; simpl.
  - destruct (GetErrType e); simpl.
    + destruct (GetRemoteErrCode e =? 31363).
      * run_monad. eexists [_; _], _. rewrite <- app_assoc. by split.
      * exists [], d. rewrite app_nil_r. by destruct (GetRemoteErrCode e =? 31061).
    + exists [], d. rewrite app_nil_r.
      by destruct (Contains (GetErrorText e) "413 Request Entity Too Large").
    + exists [], d. by rewrite app_nil_r.
  - exists [], d. by rewrite app_nil_r.
Qed.

Lemma upload_out getBlockSize u d o :
  exists tail d',
    snd (upload getBlockSize w (mkState u d o))
    = mkState (withStep StepUploadUpload u) d'
        (o ++ EvExecute (uploadConfig getBlockSize w (withStep StepUploadUpload u)) (state u)
           :: tail)
    /\ existsb isRapidStage tail = false.
Proof.
  rewrite upload_run. cbv zeta. destruct (transferOutcome w) as [|err].
  - rewrite onSuccess_run. cbn [snd]. eexists (_ ++ [_; _; _; _]), _.
    split; [by rewrite <- app_assoc|].
    rewrite existsb_app, tickEvents_rapid_stage. simpl.
    by rewrite printfEvent_rapid_stage.
  - match goal with |- context [onError err ?r (mkState ?u' ?d' ?o')] =>
      destruct (onError_run err r u' d' o') as (evs & d2 & -> & Hevs) end.
    eexists (_ ++ evs), d2. split; [by rewrite <- app_assoc|].
    by rewrite existsb_app, tickEvents_rapid_stage, Hevs.
Qed.

(** What the search leaves of the identity. *)
Lemma readHashes_Path (meta : LocalFileMeta) (d : UploadingDatabase) :
  Path (readHashes meta d) = Path meta.
Proof. unfold readHashes. repeat case_match; reflexivity. Qed.

Lemma readHashes_Length (meta : LocalFileMeta) (d : UploadingDatabase) :
  Length (readHashes meta d) = Length meta.
Proof. unfold readHashes. repeat case_match; reflexivity. Qed.

Lemma readHashes_known (meta : LocalFileMeta) (d : UploadingDatabase) :
  MD5 meta <> None -> readHashes meta d = meta.
Proof. unfold readHashes. intros Hmd5. repeat case_match; congruence. Qed.

Lemma readHashes_none (meta : LocalFileMeta) (d : UploadingDatabase) :
  MD5 (readHashes meta d) = None -> readHashes meta d = meta.
Proof. unfold readHashes. repeat case_match; simpl; congruence. Qed.

Lemma readHashes_not_found (meta : LocalFileMeta) (d : UploadingDatabase) :
  entryOf meta (UploadingList d) = None -> readHashes meta d = meta.
Proof. unfold readHashes. by intros ->. Qed.

Lemma prepareFile_run pathClean u d o :
  exists step evs,
    prepareFile pathClean w (mkState u d o)
    = (tt, mkState
             (withStep step
                (withState (Search (LocalFileChecksum u) d)
                   (withMeta (readHashes (LocalFileChecksum u) d)
                      (withPan (pathClean (fst (pathSplit (SavePath u))))
                         (snd (pathSplit (SavePath u))) u))))
             d (o ++ EvDbSearch (LocalFileChecksum u) :: evs))
    /\ existsb isRapidStage evs = false
    /\ existsb isExecute evs = false
    /\ (step = StepUploadUpload \/ readHashes (LocalFileChecksum u) d = LocalFileChecksum u).
Proof.
  unfold prepareFile. run_monad.
  destruct (pathSplit (SavePath u)) as [dir file]. run_monad.
  cbn [withPan withMeta withState LocalFileChecksum NoRapidUpload].
  destruct (bool_decide (Search (LocalFileChecksum u) d <> None)
            || bool_decide (MD5 (readHashes (LocalFileChecksum u) d) <> None)) eqn:Hfound.
  { exists StepUploadUpload, []. by split_and!; [..|left]. }
  apply orb_false_elim in Hfound as [_ Hmd5].
  apply bool_decide_eq_false in Hmd5.
  assert (Hsame : readHashes (LocalFileChecksum u) d = LocalFileChecksum u).
  { apply readHashes_none.
    destruct (MD5 (readHashes (LocalFileChecksum u) d)); [|reflexivity].
    by destruct Hmd5. }
  destruct (NoRapidUpload u).
  { exists StepUploadUpload, []. by split_and!; [..|left]. }
  rewrite readHashes_Length.
  destruct (Length (LocalFileChecksum u) >? MaxRapidUploadSize); run_monad.
  - eexists StepUploadUpload, [_]. rewrite <- app_assoc. split_and!; [reflexivity| | |by left].
    + simpl. by rewrite printfEvent_rapid_stage.
    + simpl. by rewrite printfEvent_execute.
  - exists StepUploadRapidUpload, []. by split_and!; [..|right].
Qed.

(** [Run] in terms of its stages. *)
Lemma Run_run pathClean getBlockSize u d :
  Run pathClean getBlockSize w (start u d) =
  let o0 := [printfEvent w u "准备上传: %s" [AStr (Path (LocalFileChecksum u))];
             EvOpenPath] in
  match openPathErr w with
  | Some err =>
      (None, mkState u d (o0 ++ [printfEvent w u "文件不可读, 错误信息: %s, 跳过..." [AErr err]]))
  | None =>
      let s1 := snd (prepareFile pathClean w (mkState u d o0)) in
      match Step (utu s1) with
      | StepUploadUpload =>
          (Some (fst (upload getBlockSize w s1)), closeFile (snd (upload getBlockSize w s1)))
      | _ =>
          let ru := rapidUpload w s1 in
          if fst (fst ru)
          then (Some (fst (upload getBlockSize w (snd ru))),
                closeFile (snd (upload getBlockSize w (snd ru))))
          else (Some (snd (fst ru)), closeFile (snd ru))
      end
  end.
Proof.
  unfold Run, start. run_monad. cbn [app].
  destruct (openPathErr w) as [err|]; run_monad; [reflexivity|].
  destruct (prepareFile pathClean w _) as [[] s1]. cbn [snd].
  destruct (Step (utu s1)).
  - destruct (rapidUpload w s1) as [[[] r] s2]; run_monad; cbn [fst snd];
      [by destruct (upload getBlockSize w s2)|reflexivity].
  - destruct (rapidUpload w s1) as [[[] r] s2]; run_monad; cbn [fst snd];
      [by destruct (upload getBlockSize w s2)|reflexivity].
  - by destruct (upload getBlockSize w s1).
Qed.

(** A run produces events of the rapid upload stage only if the file
    opens and [prepareFile] does not select the block transfer; the rest
    of the run is then [rapidUpload] from the state [s1] that
    [prepareFile] leaves. *)
Lemma Run_rapid_stage pathClean getBlockSize u d :
  existsb isRapidStage (out (snd (Run pathClean getBlockSize w (start u d)))) = true ->
  exists s1,
    Run pathClean getBlockSize w (start u d)
    = (let ru := rapidUpload w s1 in
       if fst (fst ru)
       then (Some (fst (upload getBlockSize w (snd ru))),
             closeFile (snd (upload getBlockSize w (snd ru))))
       else (Some (snd (fst ru)), closeFile (snd ru)))
    /\ existsb isRapidStage (out s1) = false
    /\ existsb isExecute (out s1) = false
    /\ db s1 = d
    /\ SavePath (utu s1) = SavePath u
    /\ panFile (utu s1) = snd (pathSplit (SavePath u))
    /\ LocalFileChecksum (utu s1) = LocalFileChecksum u
    /\ printer (utu s1) = printer u.
Proof.
  rewrite Run_run. cbv zeta.
  destruct (openPathErr w) as [oerr|].
  { event_scan. discriminate. }
  match goal with |- context [prepareFile pathClean w (mkState ?u' ?d' ?o')] =>
    destruct (prepareFile_run pathClean u' d' o') as (step & evs & -> & Hevs & Hevx & Hmeta) end.
  cbn [snd utu Step withStep].
  set (s1 := mkState _ d _).
  assert (Hs1 : existsb isRapidStage (out s1) = false) by (subst s1; event_scan; reflexivity).
  assert (Hx1 : existsb isExecute (out s1) = false) by (subst s1; event_scan; reflexivity).
  destruct step.
  - intros _. destruct Hmeta as [|Hmeta]; [discriminate|]. by exists s1.
  - intros _. destruct Hmeta as [|Hmeta]; [discriminate|]. by exists s1.
  - destruct s1 as [u1 d1 o1].
    destruct (upload_out getBlockSize u1 d1 o1) as (tail & d2 & -> & Htail).
    cbn [out] in Hs1. event_scan. discriminate.
Qed.

End Effects.

(** The store after [Delete] has no entry for the identity. *)
Lemma entryOf_Delete (meta : LocalFileMeta) (d : UploadingDatabase) :
  entryOf meta (UploadingList (Delete meta d)) = None.
Proof.
  unfold entryOf, Delete. cbn [UploadingList].
  induction (UploadingList d) as [|e l IH]; simpl; [reflexivity|].
  destruct (sameFile (fst e) meta) eqn:He; simpl; [exact IH|].
  by rewrite He.
Qed.

Lemma Search_Delete (meta : LocalFileMeta) (d : UploadingDatabase) :
  Search meta (Delete meta d) = None.
Proof. unfold Search. by rewrite entryOf_Delete. Qed.

(** C4. [prepareFile] looks up the checkpoint of the file, which also
    reads an MD5 cached in the store into a task unit that has none. After
    it the step is the block transfer when a resume state was found, or
    the MD5 is known (the task unit had it from a previous attempt, or the
    store remembered it), or rapid upload is switched off, or the file is
    longer than 20 GiB (21474836480 bytes); in every other case it is the
    rapid upload. *)
Theorem prepareFile_next_step (pathClean : string -> string) (w : World) (s : State) :
  let meta := LocalFileChecksum (utu s) in
  let s' := snd (prepareFile pathClean w s) in
  let meta' := LocalFileChecksum (utu s') in
  let skip :=
    Search meta (db s) <> None \/ MD5 meta' <> None
    \/ NoRapidUpload (utu s) = true \/ Length meta > 21474836480 in
  ((skip /\ Step (utu s') = StepUploadUpload)
   \/ (~ skip /\ Step (utu s') = StepUploadRapidUpload))
  /\ state (utu s') = Search meta (db s)
  /\ meta' = readHashes meta (db s)
  /\ (MD5 meta <> None -> meta' = meta)
  /\ (forall m st,
        MD5 meta = None ->
        entryOf meta (UploadingList (db s)) = Some (m, st) ->
        MD5 meta' = MD5 m).
Proof.
  intros meta s' meta' skip. subst meta s' meta' skip.
  destruct s as [u d o].
  destruct (prepareFile_run w pathClean u d o) as (step & evs & Hrun & _ & _ & _).
  assert (Hmeta : LocalFileChecksum (utu (snd (prepareFile pathClean w (mkState u d o))))
                  = readHashes (LocalFileChecksum u) d) by (by rewrite Hrun).
  assert (Hstate : state (utu (snd (prepareFile pathClean w (mkState u d o))))
                   = Search (LocalFileChecksum u) d) by (by rewrite Hrun).
  rewrite Hmeta, Hstate. cbn [utu db]. clear Hrun Hmeta Hstate step evs.
  split_and!; [|reflexivity|reflexivity|apply readHashes_known|].
  - unfold prepareFile. run_monad.
    destruct (pathSplit (SavePath u)) as [dir file]. run_monad.
    cbn [withPan withMeta withState LocalFileChecksum NoRapidUpload].
    destruct (Search (LocalFileChecksum u) d) as [st|] eqn:Hst; simpl.
    { left. split; [left; discriminate|reflexivity]. }
    destruct (MD5 (readHashes (LocalFileChecksum u) d)) as [m|] eqn:Hmd5; simpl.
    { left. split; [right; left; discriminate|reflexivity]. }
    destruct (NoRapidUpload u) eqn:Hno; simpl.
    { left. split; [tauto|reflexivity]. }
    rewrite readHashes_Length. unfold MaxRapidUploadSize.
    destruct (Z.gtb_spec (Length (LocalFileChecksum u)) (20 * 1024 * 1024 * 1024))
      as [Hgt|Hle]; run_monad.
    + left. split; [right; right; right; lia|reflexivity].
    + right. split; [|reflexivity].
      intros [H|[H|[H|H]]]; [by apply H|by apply H|discriminate|lia].
  - intros m st Hnone Hentry. unfold readHashes. rewrite Hentry, Hnone.
    by destruct (MD5 m).
Qed.

(** C4 at concrete inputs: a new task unit for a file whose placeholder
    in the store holds the MD5 of an earlier attempt skips the rapid
    upload; with an empty store it goes to the rapid upload. *)
Lemma prepareFile_next_step_witness :
  let w := exampleWorld false [] None TransferSucceeds in
  let s1 := snd (prepareFile exampleClean w (start exampleUnit placeholderDb)) in
  let s2 := snd (prepareFile exampleClean w (start exampleUnit emptyDb)) in
  (MD5 (LocalFileChecksum exampleUnit) = None
   /\ Search exampleMeta placeholderDb = None
   /\ MD5 (LocalFileChecksum (utu s1)) = Some exampleMD5
   /\ Step (utu s1) = StepUploadUpload)
  /\ (MD5 (LocalFileChecksum (utu s2)) = None
      /\ Step (utu s2) = StepUploadRapidUpload).
Proof.
  pose proof (prepareFile_next_step exampleClean
                (exampleWorld false [] None TransferSucceeds)
                (start exampleUnit placeholderDb)) as H1.
  pose proof (prepareFile_next_step exampleClean
                (exampleWorld false [] None TransferSucceeds)
                (start exampleUnit emptyDb)) as H2.
  cbv zeta in H1, H2.
  destruct H1 as ([[_ Hstep1]|[Hskip _]] & _ & _ & _ & Hread).
  2: { exfalso. apply Hskip. right. left.
       rewrite (Hread _ None eq_refl eq_refl). discriminate. }
  destruct H2 as ([[Hskip _]|[_ Hstep2]] & _ & Hmeta & _ & _).
  1: { exfalso. revert Hskip. rewrite Hmeta. vm_compute.
       intros [H|[H|[H|H]]]; congruence. }
  split_and!.
  - reflexivity.
  - reflexivity.
  - exact (Hread _ None eq_refl eq_refl).
  - exact Hstep1.
  - by rewrite Hmeta.
  - exact Hstep2.
Defined.

(** C5. When the transfer succeeds, [upload] deletes the checkpoint of the
    file and saves the store, and reports success; afterwards neither the
    store nor its saved copy has an entry for the file. *)
Theorem upload_success_deletes_checkpoint
    (getBlockSize : Z -> Z) (w : World) (s : State) :
  transferOutcome w = TransferSucceeds ->
  let r := fst (upload getBlockSize w s) in
  let s' := snd (upload getBlockSize w s) in
  let meta := LocalFileChecksum (utu s) in
  Succeed r = true /\ NeedRetry r = false
  /\ (exists pre : list Event, out s' = pre ++ [EvDbDelete meta; EvDbSave])
  /\ Search meta (db s') = None
  /\ entryOf meta (UploadingList (db s')) = None
  /\ entryOf meta (saved (db s')) = None.
Proof.
  intros Hok r s' meta. subst r s' meta. destruct s as [u d o].
  rewrite upload_run, Hok, onSuccess_run. cbn [fst snd utu db out].
  cbn [Succeed NeedRetry emptyResult withStep LocalFileChecksum Save saved UploadingList].
  repeat split.
  - match goal with
    | |- exists pre, ?front ++ [?e1; ?e2; ?e3; ?e4] = _ => exists (front ++ [e1; e2])
    end.
    by rewrite <- !app_assoc.
  - apply Search_Delete.
  - apply entryOf_Delete.
  - apply entryOf_Delete.
Qed.

Lemma upload_success_deletes_checkpoint_witness :
  let w := exampleWorld false [] None TransferSucceeds in
  let s := start (withState (Some [0; 1]) exampleUnit) resumeDb in
  Search exampleMeta (db s) = Some [0; 1]
  /\ Succeed (fst (upload exampleBlockSize w s)) = true
  /\ NeedRetry (fst (upload exampleBlockSize w s)) = false
  /\ (exists pre : list Event, out (snd (upload exampleBlockSize w s))
                   = pre ++ [EvDbDelete exampleMeta; EvDbSave])
  /\ Search exampleMeta (db (snd (upload exampleBlockSize w s))) = None
  /\ entryOf exampleMeta (UploadingList (db (snd (upload exampleBlockSize w s)))) = None
  /\ entryOf exampleMeta (saved (db (snd (upload exampleBlockSize w s)))) = None.
Proof.
  split; [reflexivity|].
  apply (upload_success_deletes_checkpoint exampleBlockSize
           (exampleWorld false [] None TransferSucceeds)
           (start (withState (Some [0; 1]) exampleUnit) resumeDb)).
  reflexivity.
Defined.

(** C1. When the transfer fails, [upload] returns a failure whose retry
    flag follows the cause: a remote error 31363 deletes the checkpoint,
    saves the store and asks for a retry; a remote error 31061 is final;
    any other remote error asks for a retry; a network error whose text
    contains "413 Request Entity Too Large" is final; any other network
    error asks for a retry; an error that is not a [pcserror.Error] is
    final, and so is a [pcserror.Error] of another kind. *)
Theorem upload_failure_classified
    (getBlockSize : Z -> Z) (w : World) (s : State) (err : GoError) :
  transferOutcome w = TransferFails err ->
  let r := fst (upload getBlockSize w s) in
  let s' := snd (upload getBlockSize w s) in
  let meta := LocalFileChecksum (utu s) in
  Succeed r = false
  /\ (forall e, err = Classified e -> GetErrType e = ErrTypeRemoteError ->
        GetRemoteErrCode e = 31363 ->
        NeedRetry r = true
        /\ exists pre : list Event, out s' = pre ++ [EvDbDelete meta; EvDbSave])
  /\ (forall e, err = Classified e -> GetErrType e = ErrTypeRemoteError ->
        GetRemoteErrCode e = 31061 -> NeedRetry r = false)
  /\ (forall e, err = Classified e -> GetErrType e = ErrTypeRemoteError ->
        GetRemoteErrCode e <> 31363 -> GetRemoteErrCode e <> 31061 ->
        NeedRetry r = true)
  /\ (forall e, err = Classified e -> GetErrType e = ErrTypeNetError ->
        Contains (GetErrorText e) "413 Request Entity Too Large" = true ->
        NeedRetry r = false)
  /\ (forall e, err = Classified e -> GetErrType e = ErrTypeNetError ->
        Contains (GetErrorText e) "413 Request Entity Too Large" = false ->
        NeedRetry r = true)
  /\ (forall text, err = Unclassified text -> NeedRetry r = false)
  /\ (forall e, err = Classified e -> GetErrType e = ErrTypeOther ->
        NeedRetry r = false).
Proof.
  intros Hfail r s' meta. subst r s' meta. destruct s as [u d o].
  rewrite upload_run, Hfail. cbn [utu LocalFileChecksum withStep].
  split_and!.
  - destruct err as [e|text]; simpl; [|reflexivity].
    destruct (GetErrType e); simpl; try reflexivity.
    + destruct (GetRemoteErrCode e =? 31363); [reflexivity|].
      by destruct (GetRemoteErrCode e =? 31061).
    + by destruct (Contains (GetErrorText e) "413 Request Entity Too Large").
  - intros e -> Hty Hcode. unfold onError. rewrite Hty, Hcode.
    change (31363 =? 31363) with true. run_monad. split; [reflexivity|].
    eexists. rewrite <- app_assoc. reflexivity.
  - intros e -> Hty Hcode. simpl. rewrite Hty, Hcode. reflexivity.
  - intros e -> Hty Hn1 Hn2. simpl. rewrite Hty.
    destruct (Z.eqb_spec (GetRemoteErrCode e) 31363); [contradiction|].
    destruct (Z.eqb_spec (GetRemoteErrCode e) 31061); [contradiction|reflexivity].
  - intros e -> Hty Hbig. simpl. rewrite Hty, Hbig. reflexivity.
  - intros e -> Hty Hsmall. simpl. rewrite Hty, Hsmall. reflexivity.
  - intros text ->. reflexivity.
  - intros e -> Hty. simpl. rewrite Hty. reflexivity.
Qed.

Lemma upload_failure_classified_witness :
  let retry err :=
    NeedRetry (fst (upload exampleBlockSize
                      (exampleWorld false [] None (TransferFails err))
                      (start exampleUnit emptyDb))) in
  retry (Classified (remoteError 31363)) = true
  /\ retry (Classified (remoteError 31061)) = false
  /\ retry (Classified (remoteError 31021)) = true
  /\ retry (Classified (netError "HTTP 413 Request Entity Too Large")) = false
  /\ retry (Classified (netError "connection reset by peer")) = true
  /\ retry (Unclassified "unexpected EOF") = false.
Proof.
  pose (cases := fun err =>
    upload_failure_classified exampleBlockSize
      (exampleWorld false [] None (TransferFails err))
      (start exampleUnit emptyDb) err eq_refl).
  cbv zeta in cases. split_and!.
  - destruct (cases (Classified (remoteError 31363))) as (_ & H & _).
    by destruct (H _ eq_refl eq_refl eq_refl).
  - destruct (cases (Classified (remoteError 31061))) as (_ & _ & H & _).
    exact (H _ eq_refl eq_refl eq_refl).
  - destruct (cases (Classified (remoteError 31021))) as (_ & _ & _ & H & _).
    apply (H _ eq_refl eq_refl); discriminate.
  - destruct (cases (Classified (netError "HTTP 413 Request Entity Too Large")))
      as (_ & _ & _ & _ & H & _).
    exact (H _ eq_refl eq_refl eq_refl).
  - destruct (cases (Classified (netError "connection reset by peer")))
      as (_ & _ & _ & _ & _ & H & _).
    exact (H _ eq_refl eq_refl eq_refl).
  - destruct (cases (Unclassified "unexpected EOF")) as (_ & _ & _ & _ & _ & _ & H & _).
    exact (H _ eq_refl).
Defined.

(** C3. When a run calls the rapid upload and the answer is the remote
    error 31112, the run returns a final failure (no success, no retry)
    and never starts the block transfer. *)
Theorem run_quota_exceeded_terminal
    (pathClean : string -> string) (getBlockSize : Z -> Z) (w : World)
    (u : UploadTaskUnit) (d : UploadingDatabase) (e : PcsError) :
  let res := Run pathClean getBlockSize w (start u d) in
  existsb isRapidUpload (out (snd res)) = true ->
  rapidUploadResult w = Some e ->
  GetErrType e = ErrTypeRemoteError ->
  GetRemoteErrCode e = 31112 ->
  fst res = Some {| Succeed := false; NeedRetry := false; Err := None;
                    ResultMessage := "秒传失败, 超出配额, 网盘容量已满" |}
  /\ existsb isExecute (out (snd res)) = false.
Proof.
  intros res Hcall Hrapid Hty Hcode. subst res.
  assert (Hquota : exceedQuota e = true).
  { unfold exceedQuota. by rewrite Hty, Hcode. }
  destruct (Run_rapid_stage w pathClean getBlockSize u d) as (s1 & Hrun & Hs1 & Hx1 & _).
  { destruct (existsb isRapidStage _) eqn:Hs; [reflexivity|].
    by rewrite (existsb_weaken _ _ _ isRapidUpload_stage Hs) in Hcall. }
  rewrite Hrun in Hcall |- *. clear Hrun. destruct s1 as [u1 d1 o1]. cbn [out] in Hs1, Hx1.
  pose proof (existsb_weaken _ _ _ isRapidUpload_stage Hs1) as Hr1.
  revert Hcall. rewrite rapidUpload_run. cbv zeta.
  destruct (listFailure _) as [r|]; cbn [fst snd].
  { event_scan. discriminate. }
  destruct (sumResult w) as [serr|[md5 sl]]; cbn [fst snd].
  { destruct (_ >=? _); event_scan; discriminate. }
  destruct (existsb (sameRemoteFile _) _); cbn [fst snd].
  { destruct (_ >=? _); event_scan; discriminate. }
  rewrite Hrapid, Hquota. cbn [fst snd]. intros _. split; [reflexivity|].
  destruct (_ >=? _); event_scan; reflexivity.
Qed.

Lemma run_quota_exceeded_terminal_witness :
  let w := exampleWorld false [] (Some (remoteError 31112)) TransferSucceeds in
  let res := Run exampleClean exampleBlockSize w (start exampleUnit emptyDb) in
  fst res = Some {| Succeed := false; NeedRetry := false; Err := None;
                    ResultMessage := "秒传失败, 超出配额, 网盘容量已满" |}
  /\ existsb isExecute (out (snd res)) = false.
Proof.
  apply (run_quota_exceeded_terminal exampleClean exampleBlockSize
           (exampleWorld false [] (Some (remoteError 31112)) TransferSucceeds)
           exampleUnit emptyDb (remoteError 31112));
    reflexivity.
Defined.

(** C2. When a run reaches the rapid upload stage, the listing of the
    parent directory is usable and has an entry with the leaf name of the
    target whose MD5 decodes to the MD5 computed for the local file, the
    run returns success without calling the rapid upload and without
    starting the block transfer. *)
Theorem run_dedup_short_circuit
    (pathClean : string -> string) (getBlockSize : Z -> Z) (w : World)
    (u : UploadTaskUnit) (d : UploadingDatabase)
    (fdl : list FileDirectory) (md5 slicemd5 : list Z) (fd : FileDirectory) :
  let res := Run pathClean getBlockSize w (start u d) in
  existsb isListDir (out (snd res)) = true ->
  fst (listResult w) = Some fdl ->
  listFailure (snd (listResult w)) = None ->
  sumResult w = inr (md5, slicemd5) ->
  In fd fdl ->
  fdFilename fd = snd (pathSplit (SavePath u)) ->
  hexDecodeString (fdMD5 fd) = md5 ->
  fst res = Some {| Succeed := true; NeedRetry := false; Err := None;
                    ResultMessage := "" |}
  /\ existsb isRapidUpload (out (snd res)) = false
  /\ existsb isExecute (out (snd res)) = false.
Proof.
  intros res Hstage Hfdl Hlist Hsum Hin Hname Hmd5. subst res.
  destruct (Run_rapid_stage w pathClean getBlockSize u d)
    as (s1 & Hrun & Hs1 & Hx1 & _ & _ & Hpan & _).
  { destruct (existsb isRapidStage _) eqn:Hs; [reflexivity|].
    by rewrite (existsb_weaken _ _ _ isListDir_stage Hs) in Hstage. }
  rewrite Hrun. clear Hrun Hstage. destruct s1 as [u1 d1 o1]. cbn [out utu] in *.
  pose proof (existsb_weaken _ _ _ isRapidUpload_stage Hs1) as Hr1.
  rewrite rapidUpload_run. cbv zeta. rewrite Hlist, Hsum, Hfdl.
  change (default [] (Some fdl)) with fdl.
  assert (Hsame : existsb
            (sameRemoteFile (withHashes md5 slicemd5 (withStep StepUploadRapidUpload u1)))
            fdl = true).
  { apply existsb_exists. exists fd. split; [exact Hin|].
    unfold sameRemoteFile. cbn. rewrite Hpan.
    by rewrite !bool_decide_eq_true_2. }
  rewrite Hsame. cbn [fst snd]. split; [reflexivity|].
  split; destruct (_ >=? _); event_scan; reflexivity.
Qed.

Lemma run_dedup_short_circuit_witness :
  let w := exampleWorld false
             [mkFd "b.bin" "00"; mkFd "a.bin" "D41D8CD98F00B204E9800998ECF8427E"]
             None TransferSucceeds in
  let res := Run exampleClean exampleBlockSize w (start exampleUnit emptyDb) in
  fst res = Some {| Succeed := true; NeedRetry := false; Err := None;
                    ResultMessage := "" |}
  /\ existsb isRapidUpload (out (snd res)) = false
  /\ existsb isExecute (out (snd res)) = false.
Proof.
  apply (run_dedup_short_circuit exampleClean exampleBlockSize
           (exampleWorld false
              [mkFd "b.bin" "00"; mkFd "a.bin" "D41D8CD98F00B204E9800998ECF8427E"]
              None TransferSucceeds)
           exampleUnit emptyDb
           [mkFd "b.bin" "00"; mkFd "a.bin" "D41D8CD98F00B204E9800998ECF8427E"]
           exampleMD5 [1; 2] (mkFd "a.bin" "D41D8CD98F00B204E9800998ECF8427E")).
  - reflexivity.
  - reflexivity.
  - reflexivity.
  - reflexivity.
  - right. left. reflexivity.
  - reflexivity.
  - reflexivity.
Defined.

(** C7. When a run calls the rapid upload and the answer is an error other
    than the remote error 31112, the run writes a message, stores a
    placeholder for the file (its identity, no resume state), saves the
    store and then starts the block transfer. *)
Theorem run_rapid_rejected_falls_through
    (pathClean : string -> string) (getBlockSize : Z -> Z) (w : World)
    (u : UploadTaskUnit) (d : UploadingDatabase) (e : PcsError) :
  let res := Run pathClean getBlockSize w (start u d) in
  existsb isRapidUpload (out (snd res)) = true ->
  rapidUploadResult w = Some e ->
  ~ (GetErrType e = ErrTypeRemoteError /\ GetRemoteErrCode e = 31112) ->
  let meta := LocalFileChecksum (utu (snd res)) in
  Path meta = Path (LocalFileChecksum u)
  /\ Step (utu (snd res)) = StepUploadUpload
  /\ exists (pre post : list Event) (call : Event)
            (cfg : MultiUploaderConfig) (seed : option InstanceState),
       isRapidUpload call = true
       /\ out (snd res)
          = pre ++ [call; printfEvent w u "秒传失败, 开始上传文件..." [];
                    EvDbUpdate meta None; EvDbSave; EvExecute cfg seed] ++ post.
Proof.
  intros res Hcall Hrapid Hnot. subst res.
  assert (Hquota : exceedQuota e = false).
  { unfold exceedQuota. destruct (GetErrType e) eqn:Hty; try reflexivity.
    destruct (Z.eqb_spec (GetRemoteErrCode e) 31112); [|reflexivity].
    exfalso. by apply Hnot. }
  destruct (Run_rapid_stage w pathClean getBlockSize u d)
    as (s1 & Hrun & Hs1 & Hx1 & _ & _ & _ & Hmeta & Hprinter).
  { destruct (existsb isRapidStage _) eqn:Hs; [reflexivity|].
    by rewrite (existsb_weaken _ _ _ isRapidUpload_stage Hs) in Hcall. }
  rewrite Hrun in Hcall |- *. clear Hrun. destruct s1 as [u1 d1 o1]. cbn [out utu] in *.
  pose proof (existsb_weaken _ _ _ isRapidUpload_stage Hs1) as Hr1.
  revert Hcall. rewrite rapidUpload_run. cbv zeta.
  destruct (listFailure _) as [r|]; cbn [fst snd].
  { event_scan. discriminate. }
  destruct (sumResult w) as [serr|[md5 sl]]; cbn [fst snd].
  { destruct (_ >=? _); event_scan; discriminate. }
  destruct (existsb (sameRemoteFile _) _); cbn [fst snd].
  { destruct (_ >=? _); event_scan; discriminate. }
  rewrite Hrapid, Hquota. cbn [fst snd]. intros _.
  match goal with |- context [upload getBlockSize w (mkState ?u2 ?d2 ?o2)] =>
    destruct (upload_out w getBlockSize u2 d2 o2) as (tail & d3 & -> & _) end.
  cbn [closeFile utu out]. cbn [withStep withHashes withMeta LocalFileChecksum Path Step].
  split; [by rewrite Hmeta|]. split; [reflexivity|].
  unfold printfEvent. cbn [printer withHashes withMeta withStep]. rewrite Hprinter.
  match goal with
  | |- exists pre post call cfg seed,
         _ /\ (((?front ++ [?c]) ++ _) ++ EvExecute ?cf ?sd :: ?tl) ++ _ = _ =>
      exists front, (tl ++ [EvClose]), c, cf, sd
  end.
  split; [reflexivity|].
  rewrite <- !app_assoc. cbn [app]. reflexivity.
Qed.

Lemma run_rapid_rejected_falls_through_witness :
  let w := exampleWorld false [] (Some (netError "connection reset by peer"))
             TransferSucceeds in
  let res := Run exampleClean exampleBlockSize w (start exampleUnit emptyDb) in
  let meta := LocalFileChecksum (utu (snd res)) in
  Path meta = Path (LocalFileChecksum exampleUnit)
  /\ Step (utu (snd res)) = StepUploadUpload
  /\ exists (pre post : list Event) (call : Event)
            (cfg : MultiUploaderConfig) (seed : option InstanceState),
       isRapidUpload call = true
       /\ out (snd res)
          = pre ++ [call; printfEvent w exampleUnit "秒传失败, 开始上传文件..." [];
                    EvDbUpdate meta None; EvDbSave; EvExecute cfg seed] ++ post.
Proof.
  apply (run_rapid_rejected_falls_through exampleClean exampleBlockSize
           (exampleWorld false [] (Some (netError "connection reset by peer"))
              TransferSucceeds)
           exampleUnit emptyDb (netError "connection reset by peer")).
  - reflexivity.
  - reflexivity.
  - intros [Hty _]. discriminate Hty.
Defined.

(** C6, as amended. A status event saves the checkpoint exactly when the
    update signal is ready, and then writes one progress line with the
    uploaded size, the total size, the speed and the elapsed time: through
    the injected printer when one is set and verbose mode is off, and on
    standard output otherwise. *)
Theorem status_event_persist_and_progress_line (w : World) (t : StatusTick) (s : State) :
  let s' := snd (onUploadStatusEvent w t s) in
  let meta := LocalFileChecksum (utu s) in
  let args := [ASize (Uploaded t); ASize (TotalSize t); ASize (SpeedsPerSecond t);
               ADuration (TimeElapsed t)] in
  let line :=
    match printer (utu s) with
    | Some name =>
        if IsVerbose w then EvStdout (PrintFormat (utu s)) args
        else EvPrinter name (PrintFormat (utu s)) args
    | None => EvStdout (PrintFormat (utu s)) args
    end in
  out s' = out s
           ++ (if updateReady t then [EvDbUpdate meta (currentState t); EvDbSave] else [])
           ++ [line]
  /\ db s' = (if updateReady t
              then Save (UpdateUploading meta (currentState t) (db s)) else db s)
  /\ utu s' = utu s.
Proof.
  intros s' meta args line. subst s' meta args line. destruct s as [u d o].
  rewrite onUploadStatusEvent_run. cbn [snd out db utu]. repeat split.
Qed.

(** C6, as stated, fails: in verbose mode the progress line does not go
    through the injected printer, although one is set. *)
Lemma status_event_verbose_not_through_printer :
  let w := exampleWorld true [] None TransferSucceeds in
  let s' := snd (onUploadStatusEvent w (exampleTick true) (start exampleUnit emptyDb)) in
  printer exampleUnit = Some "f1"
  /\ List.filter isPrinter (out s') = []
  /\ List.filter isOutput (out s')
     = [EvStdout DefaultPrintFormat [ASize 512; ASize 1000; ASize 256; ADuration 2]].
Proof. vm_compute. repeat split. Qed.

(** [prepareFile] at the size limit: a file of exactly 20 GiB still goes
    to the rapid upload, one more byte does not. *)
Example prepareFile_at_limit :
  let big n := withMeta (mkMeta "/home/u/a.bin" n None None 0) exampleUnit in
  let w := exampleWorld false [] None TransferSucceeds in
  Step (utu (snd (prepareFile exampleClean w (start (big 21474836480) emptyDb))))
  = StepUploadRapidUpload
  /\ Step (utu (snd (prepareFile exampleClean w (start (big 21474836481) emptyDb))))
     = StepUploadUpload.
Proof. split; reflexivity. Qed.

End PcsUploadFacts.

(** ** Further properties of the task printer *)

Module TaskFrameworkMore.
Import GoLib TaskFramework TaskFrameworkLoop.

(** *** Registration *)

Lemma rowsBound_new : rowsBound NewTaskPrinter.
Proof.
  intros vid i H. unfold NewTaskPrinter in H. cbn [idMap] in H.
  by rewrite lookup_empty in H.
Qed.

Lemma rowsBound_SetTaskInfo (i : TaskInfo) (p : TaskPrinter) :
  rowsBound p -> rowsBound (SetTaskInfo i p).
Proof.
  intros Hp vid k. unfold SetTaskInfo. cbn [idMap tasks].
  destruct (decide (id i = vid)) as [<-|Hne].
  - rewrite lookup_insert_eq. intros [= <-].
    exists {| info := i; stat := TaskWait; msg := "初始化..." |}. split; [|reflexivity].
    rewrite lookup_app_r by lia. by rewrite Nat.sub_diag.
  - rewrite lookup_insert_ne by done. intros Hk.
    destruct (Hp vid k Hk) as (t & Ht & Hid).
    exists t. split; [|exact Hid]. by rewrite lookup_app_l by (by eapply lookup_lt_Some).
Qed.

Lemma Update_idMap (m : Msg) (p : TaskPrinter) : idMap (Update m p) = idMap p.
Proof.
  destruct m as [ | | v st | v mm | ]; simpl; try reflexivity.
  - by destruct (idMap p !! v).
  - destruct (Contains mm NL); [reflexivity|]. by destruct (idMap p !! v).
Qed.

Lemma Update_infos (m : Msg) (p : TaskPrinter) :
  map info (tasks (Update m p)) = map info (tasks p).
Proof.
  assert (Halter : forall (f : taskState -> taskState) k (l : list taskState),
            (forall t, info (f t) = info t) -> map info (alter f k l) = map info l).
  { intros f k l Hf. revert k. induction l as [|t l IH]; intros [|k]; simpl; try reflexivity.
    - by rewrite Hf.
    - f_equal. apply IH. }
  destruct m as [ | | v st | v mm | ]; simpl; try reflexivity.
  - destruct (idMap p !! v); [|reflexivity]. simpl. by apply Halter.
  - destruct (Contains mm NL); [reflexivity|].
    destruct (idMap p !! v); [|reflexivity]. simpl. by apply Halter.
Qed.

Lemma rowsBound_Update (m : Msg) (p : TaskPrinter) :
  rowsBound p -> rowsBound (Update m p).
Proof.
  intros Hp vid k. rewrite Update_idMap. intros Hk.
  destruct (Hp vid k Hk) as (t & Ht & Hid).
  pose proof (Update_infos m p) as Hinfo.
  assert (Hi : map info (tasks (Update m p)) !! k = Some (info t)).
  { rewrite Hinfo. change (map info (tasks p)) with (info <$> tasks p).
    by rewrite list_lookup_fmap, Ht. }
  change (map info (tasks (Update m p))) with (info <$> tasks (Update m p)) in Hi.
  rewrite list_lookup_fmap in Hi.
  destruct (tasks (Update m p) !! k) as [t'|]; [|discriminate].
  exists t'. split; [reflexivity|]. injection Hi as Hi. by rewrite Hi.
Qed.

Lemma alter_as_insert (f : taskState -> taskState) (l : list taskState) (i : nat)
    (t : taskState) :
  l !! i = Some t -> alter f i l = <[i := f t]> l.
Proof.
  revert i. induction l as [|x l IH]; intros [|k] Hk; try discriminate; simpl in *.
  - injection Hk as Hk. by rewrite Hk.
  - f_equal. by apply IH.
Qed.

Section Sessions.

Variable StringWidth : string -> Z.

Lemma rowsBound_session (acts : list Action) : rowsBound (session StringWidth acts).
Proof.
  unfold session. generalize rowsBound_new. generalize NewTaskPrinter.
  induction acts as [|a acts IH]; intros p Hp; simpl; [exact Hp|].
  apply IH. destruct a as [i|m|]; simpl.
  - by apply rowsBound_SetTaskInfo.
  - by apply rowsBound_Update.
  - exact Hp.
Qed.

(** X1. In every session, an id of [idMap] points to an existing row, and
    that row carries the id: [Update] never indexes outside [tasks]. *)
Theorem session_id_has_row (acts : list Action) (vid : string) (i : nat) :
  idMap (session StringWidth acts) !! vid = Some i ->
  exists t, tasks (session StringWidth acts) !! i = Some t /\ id (info t) = vid.
Proof. apply rowsBound_session. Qed.

(** X2. In every session, two different ids point to different rows. *)
Theorem session_ids_distinct_rows (acts : list Action) (a b : string) (i j : nat) :
  a <> b ->
  idMap (session StringWidth acts) !! a = Some i ->
  idMap (session StringWidth acts) !! b = Some j ->
  i <> j.
Proof.
  intros Hab Ha Hb ->.
  destruct (rowsBound_session acts a j Ha) as (t & Ht & <-).
  destruct (rowsBound_session acts b j Hb) as (t' & Ht' & <-).
  apply Hab. congruence.
Qed.

(** X3. In every session, a status change for a registered id replaces the
    status of the row that carries the id and nothing else, and a message
    without line feed replaces the message of that row and nothing else. *)
Theorem session_event_changes_one_row
    (acts : list Action) (vid : string) (i : nat) (vstat : Z) (vmsg : string) :
  let p := session StringWidth acts in
  idMap p !! vid = Some i ->
  Contains vmsg NL = false ->
  exists t,
    tasks p !! i = Some t /\ id (info t) = vid
    /\ Update (statMsg vid vstat) p
       = withTasks (<[i := {| info := info t; stat := vstat; msg := msg t |}]> (tasks p)) p
    /\ Update (taskMsg vid vmsg) p
       = withTasks (<[i := {| info := info t; stat := stat t; msg := vmsg |}]> (tasks p)) p.
Proof.
  intros p Hi Hline. subst p.
  destruct (rowsBound_session acts vid i Hi) as (t & Ht & Hid).
  exists t. split; [exact Ht|]. split; [exact Hid|].
  split; simpl.
  - by rewrite Hi, (alter_as_insert _ _ _ _ Ht).
  - by rewrite Hline, Hi, (alter_as_insert _ _ _ _ Ht).
Qed.

End Sessions.

Lemma session_id_has_row_witness :
  exists t,
    tasks (session asciiWidth [Register (mkTaskInfo "f1" 0 3); Register (mkTaskInfo "f2" 0 3)])
      !! 1%nat = Some t
    /\ id (info t) = "f2".
Proof.
  apply (session_id_has_row asciiWidth
           [Register (mkTaskInfo "f1" 0 3); Register (mkTaskInfo "f2" 0 3)] "f2" 1%nat).
  reflexivity.
Defined.

(** Registering an id again moves it to a new row; the two ids of the
    session still point to different rows. *)
Lemma session_ids_distinct_rows_witness : 2%nat <> 1%nat.
Proof.
  apply (session_ids_distinct_rows asciiWidth
           [Register (mkTaskInfo "f1" 0 3); Register (mkTaskInfo "f2" 0 3);
            Register (mkTaskInfo "f1" 0 3)] "f1" "f2" 2%nat 1%nat).
  - discriminate.
  - reflexivity.
  - reflexivity.
Defined.

Lemma session_event_changes_one_row_witness :
  exists t,
    tasks (session asciiWidth [Register (mkTaskInfo "f1" 0 3); Register (mkTaskInfo "f2" 0 3)])
      !! 1%nat = Some t
    /\ id (info t) = "f2"
    /\ Update (statMsg "f2" TaskRun)
         (session asciiWidth [Register (mkTaskInfo "f1" 0 3); Register (mkTaskInfo "f2" 0 3)])
       = withTasks
           (<[1%nat := {| info := info t; stat := TaskRun; msg := msg t |}]>
              (tasks (session asciiWidth
                        [Register (mkTaskInfo "f1" 0 3); Register (mkTaskInfo "f2" 0 3)])))
           (session asciiWidth [Register (mkTaskInfo "f1" 0 3); Register (mkTaskInfo "f2" 0 3)])
    /\ Update (taskMsg "f2" "10%")
         (session asciiWidth [Register (mkTaskInfo "f1" 0 3); Register (mkTaskInfo "f2" 0 3)])
       = withTasks
           (<[1%nat := {| info := info t; stat := stat t; msg := "10%" |}]>
              (tasks (session asciiWidth
                        [Register (mkTaskInfo "f1" 0 3); Register (mkTaskInfo "f2" 0 3)])))
           (session asciiWidth [Register (mkTaskInfo "f1" 0 3); Register (mkTaskInfo "f2" 0 3)]).
Proof.
  apply (session_event_changes_one_row asciiWidth
           [Register (mkTaskInfo "f1" 0 3); Register (mkTaskInfo "f2" 0 3)]
           "f2" 1%nat TaskRun "10%"); reflexivity.
Defined.

(** X4. No event registers, removes or re-binds a task: after any events
    the ids point to the same rows, the rows carry the same task
    information in the same order, the mask is the one of the last redraw,
    and [quit] is set exactly if it was set before or a quit message is
    among the events. *)
Theorem events_keep_registration (p : TaskPrinter) (ms : list Msg) :
  idMap (afterEvents p ms) = idMap p
  /\ map info (tasks (afterEvents p ms)) = map info (tasks p)
  /\ mask (afterEvents p ms) = mask p
  /\ quit (afterEvents p ms)
     = quit p || existsb (fun m => match m with quitMsg => true | _ => false end) ms.
Proof.
  revert p. induction ms as [|m ms IH]; intros p; simpl.
  - by rewrite orb_false_r.
  - destruct (IH (Update m p)) as (Hid & Hinfo & Hmask & Hquit).
    rewrite Hid, Hinfo, Hmask, Hquit, Update_idMap, Update_infos.
    split_and!; try reflexivity.
    + destruct m as [ | | v st | v mm | ]; simpl; try reflexivity.
      * by destruct (idMap p !! v).
      * destruct (Contains mm NL); [reflexivity|]. by destruct (idMap p !! v).
    + rewrite orb_assoc. f_equal.
      destruct m as [ | | v st | v mm | ]; simpl; rewrite ?orb_false_r, ?orb_true_r;
        try reflexivity.
      * by destruct (idMap p !! v).
      * destruct (Contains mm NL); [reflexivity|]. by destruct (idMap p !! v).
Qed.

(** *** The spinner *)

Lemma afterEvents_ticks_frame (k : nat) (p : TaskPrinter) :
  spinner (afterEvents p (repeat spinnerMsg k))
  = {| Frames := Frames (spinner p); frame := frame (spinner p) + Z.of_nat k |}.
Proof.
  revert p. induction k as [|k IH]; intros p; simpl.
  - destruct (spinner p). simpl. f_equal. lia.
  - rewrite IH. simpl. f_equal. lia.
Qed.

(** X5. After [k] spinner ticks the printer of [NewTaskPrinter] shows the
    frame number [k mod 8] of [Dot], and a tick changes nothing but the
    spinner. *)
Theorem spinner_after_ticks (k : nat) :
  SpinnerString (spinner (afterEvents NewTaskPrinter (repeat spinnerMsg k)))
  = nth (k mod 8) (Frames Dot) ""
  /\ forall p : TaskPrinter,
       Update spinnerMsg p
       = {| spinner := SpinnerUpdate (spinner p); quit := quit p; idMap := idMap p;
            tasks := tasks p; multiLineMsg := multiLineMsg p; mask := mask p |}.
Proof.
  split; [|reflexivity].
  rewrite afterEvents_ticks_frame. unfold SpinnerString. cbn [Frames frame NewTaskPrinter spinner Dot].
  change (length _) with 8%nat. f_equal.
  rewrite Z.rem_mod_nonneg by lia.
  change (Z.of_nat 8) with 8. rewrite Z.add_0_l.
  change 8 with (Z.of_nat 8). rewrite <- Nat2Z.inj_mod. apply Nat2Z.id.
Qed.

(** *** The scroll-back block *)

Lemma SplitLF_cons (s : string) : exists piece pieces, SplitLF s = piece :: pieces.
Proof.
  destruct s as [|c s]; simpl; [by eexists _, _|].
  destruct (Ascii.eqb c LF); [by eexists _, _|].
  destruct (SplitLF s); by eexists _, _.
Qed.

Lemma SplitLF_join (s : string) : String.concat NL (SplitLF s) = s.
Proof.
  induction s as [|c s IH]; simpl; [reflexivity|].
  destruct (Ascii.eqb_spec c LF) as [->|Hc].
  - destruct (SplitLF_cons s) as (piece & pieces & Hs). rewrite Hs in *.
    simpl. simpl in IH. by rewrite IH.
  - destruct (SplitLF_cons s) as (piece & pieces & Hs). rewrite Hs in *.
    simpl in *. destruct pieces; simpl in *; by rewrite <- IH.
Qed.

Lemma SplitLF_length (s : string) : length (SplitLF s) = S (CountLF s).
Proof.
  induction s as [|c s IH]; simpl; [reflexivity|].
  destruct (Ascii.eqb c LF); simpl; [by rewrite IH|].
  destruct (SplitLF_cons s) as (piece & pieces & Hs). rewrite Hs in *. exact IH.
Qed.

Lemma SplitLF_pieces (s : string) : Forall (fun piece => CountLF piece = O) (SplitLF s).
Proof.
  induction s as [|c s IH]; simpl; [by repeat constructor|].
  destruct (Ascii.eqb c LF) eqn:Hc; [by constructor|].
  destruct (SplitLF_cons s) as (piece & pieces & Hs). rewrite Hs in *.
  inversion IH as [|? ? Hp Hps]; subst. constructor; [|exact Hps].
  simpl. by rewrite Hc.
Qed.

(** X6. The scroll-back lines of a frame, joined by line feeds, are the
    pending multi-line message; no line holds a line feed, and a pending
    message with [n] line feeds gives [n + 1] lines. *)
Theorem scrollBack_is_message (p : TaskPrinter) :
  String.concat NL (scrollBack p) = multiLineMsg p
  /\ Forall (fun line => CountLF line = O) (scrollBack p)
  /\ length (scrollBack p)
     = (if decide (multiLineMsg p = "") then O else S (CountLF (multiLineMsg p))).
Proof.
  unfold scrollBack. destruct (decide (multiLineMsg p = "")) as [->|Hne].
  - by repeat split.
  - split_and!; [apply SplitLF_join|apply SplitLF_pieces|apply SplitLF_length].
Qed.

Section Frames.

Variable StringWidth : string -> Z.

(** X7. A message with a line feed changes no row; it is shown above the
    table in the next frame only: the frame after that is the table
    alone. *)
Theorem multi_line_message_one_shot (p : TaskPrinter) (vid vmsg : string) :
  Contains vmsg NL = true ->
  let p1 := Update (taskMsg vid vmsg) p in
  let table := "--------" :: map (renderRow (spinner p)) (tasks p) in
  tasks p1 = tasks p
  /\ frameLines p1 = SplitLF ("[" +:+ vid +:+ "] " +:+ vmsg) ++ table
  /\ frameLines (snd (Render StringWidth p1)) = table.
Proof.
  intros Hmulti p1 table. subst p1 table. simpl. rewrite Hmulti.
  split; [reflexivity|]. split; reflexivity.
Qed.

(** X8. The first redraw (no mask yet) prints its lines as they are, each
    followed by a line feed: no cursor movement and no padding. *)
Theorem first_frame_plain (p : TaskPrinter) :
  mask p = None ->
  fst (Render StringWidth p)
  = String.concat "" (map (fun s => s +:+ NL) (frameLines p)).
Proof.
  intros Hmask. rewrite TaskFrameworkFacts.Render_buf.
  unfold cursorPrefix, emitLines. rewrite Hmask.
  change (default [] None) with (@nil Z).
  change ("" +:+ ?x) with x.
  f_equal. generalize (frameLines p). intros l.
  assert (H : forall k, imap (fun i s => emitLine StringWidth [] (k + i) s) l
                        = map (fun s => s +:+ NL) l).
  { induction l as [|s l IH]; intros k; simpl; [reflexivity|].
    f_equal. rewrite <- (IH (S k)). apply imap_ext. intros i x _. simpl.
    f_equal; lia. }
  exact (H O).
Qed.

End Frames.

Lemma multi_line_message_one_shot_witness :
  let p1 := Update (taskMsg "f1" ("line1" +:+ NL +:+ "line2")) oneTask in
  tasks p1 = tasks oneTask
  /\ frameLines p1 = ["[f1] line1"; "line2"; "--------"; "- [f1] ok"]
  /\ frameLines (snd (Render asciiWidth p1)) = ["--------"; "- [f1] ok"].
Proof.
  apply (multi_line_message_one_shot asciiWidth oneTask "f1" ("line1" +:+ NL +:+ "line2")).
  reflexivity.
Defined.

Lemma first_frame_plain_witness :
  fst (Render asciiWidth oneTask) = "--------" +:+ NL +:+ "- [f1] ok" +:+ NL.
Proof. apply (first_frame_plain asciiWidth oneTask). reflexivity. Defined.

(** *** The loop of [Start] *)

Lemma Update_quit (m : Msg) (p : TaskPrinter) :
  quit (Update m p) = quit p || match m with quitMsg => true | _ => false end.
Proof.
  destruct m as [ | | v st | v mm | ]; simpl; rewrite ?orb_false_r, ?orb_true_r;
    try reflexivity.
  - by destruct (idMap p !! v).
  - destruct (Contains mm NL); [reflexivity|]. by destruct (idMap p !! v).
Qed.

Section StartLoop.

Variable StringWidth : string -> Z.

(** X9. [Start] redraws once before each input it handles and once more
    before it stops or waits: with [n] inputs before the first quit message
    it prints [n + 1] frames. The last frame shows the printer after all
    these inputs, so every message handled before quit is drawn. The loop
    ends with [quit] set exactly if a quit message arrived, and no input
    after it is handled. *)
Theorem Start_frames (inputs : list LoopInput) (p : TaskPrinter) :
  quit p = false ->
  let r := Start StringWidth inputs p in
  let q := foldl (turn StringWidth) p (beforeQuit inputs) in
  length (fst r) = S (length (beforeQuit inputs))
  /\ last (fst r) = Some (fst (Render StringWidth q))
  /\ quit (snd r) = existsb isQuit inputs
  /\ snd r = (if existsb isQuit inputs
              then Update quitMsg (snd (Render StringWidth q))
              else snd (Render StringWidth q)).
Proof.
  revert p. induction inputs as [|i inputs IH]; intros p Hq r q; subst r q.
  - cbn [Start beforeQuit foldl existsb length].
    destruct (Render StringWidth p) as [buf p1] eqn:HR.
    cbn [fst snd length last].
    assert (Hp1 : p1 = snd (Render StringWidth p)) by (by rewrite HR).
    split_and!; try reflexivity. rewrite Hp1. exact Hq.
  - cbn [Start]. destruct (Render StringWidth p) as [buf p1] eqn:HR.
    assert (Hp1 : p1 = snd (Render StringWidth p)) by (by rewrite HR).
    assert (Hbuf : buf = fst (Render StringWidth p)) by (by rewrite HR).
    assert (Hq1 : quit p1 = false) by (by rewrite Hp1).
    destruct i as [|[ | |v st|v mm| ]].
    2: { cbn [Update quit fst snd beforeQuit isQuit existsb foldl orb length last].
         rewrite Hbuf, Hp1. by split_and!. }
    all: match goal with
         | |- context [Start _ _ (Update ?m ?q)] =>
             assert (Hq2 : quit (Update m q) = false) by (by rewrite Update_quit, Hq1);
             rewrite ?Hq2; specialize (IH _ Hq2); cbv zeta in IH;
             destruct IH as (Hlen & Hlast & Hquit & Hsnd);
             destruct (Start StringWidth inputs (Update m q)) as [bufs p'] eqn:HS
         end.
    all: cbn [fst snd beforeQuit isQuit existsb foldl turn orb length] in *.
    all: rewrite <- Hp1; split_and!; [by rewrite Hlen| |exact Hquit|exact Hsnd].
    all: destruct bufs as [|b bufs]; [discriminate Hlen|exact Hlast].
Qed.

End StartLoop.

Lemma Start_frames_witness :
  let inputs := [Recv (statMsg "f1" TaskRun); Tick; Recv (taskMsg "f1" "50%");
                 Recv quitMsg; Recv (taskMsg "f1" "late")] in
  let r := Start asciiWidth inputs oneTask in
  let q := foldl (turn asciiWidth) oneTask (beforeQuit inputs) in
  length (fst r) = S (length (beforeQuit inputs))
  /\ last (fst r) = Some (fst (Render asciiWidth q))
  /\ quit (snd r) = existsb isQuit inputs
  /\ snd r = (if existsb isQuit inputs
              then Update quitMsg (snd (Render asciiWidth q))
              else snd (Render asciiWidth q)).
Proof.
  apply (Start_frames asciiWidth
           [Recv (statMsg "f1" TaskRun); Tick; Recv (taskMsg "f1" "50%");
            Recv quitMsg; Recv (taskMsg "f1" "late")] oneTask).
  reflexivity.
Defined.

(** *** [GetPrintFunc] *)

Lemma dropLeadingLF_spec (l : list ascii) :
  exists k : nat,
    l = repeat LF k ++ dropLeadingLF l
    /\ forall rest, dropLeadingLF l <> LF :: rest.
Proof.
  induction l as [|c l IH]; simpl.
  - exists O. by split.
  - destruct (Ascii.eqb_spec c LF) as [->|Hc].
    + destruct IH as (k & Hl & Hhead). exists (S k). split; [|exact Hhead].
      simpl. by rewrite <- Hl.
    + exists O. split; [reflexivity|]. intros rest [= Heq _]. by apply Hc.
Qed.

Lemma rev_repeat_LF (k : nat) : List.rev (repeat LF k) = repeat LF k.
Proof.
  induction k as [|k IH]; simpl; [reflexivity|].
  rewrite IH. clear IH. induction k as [|k IH]; simpl; [reflexivity|]. by rewrite IH.
Qed.

(** X10. The function of [GetPrintFunc] sends nothing for a text that is
    empty or only line feeds. For any other text it sends one message for
    its id: the text without the line feeds at its end, which is not empty
    and does not end with a line feed. *)
Theorem GetPrintFunc_message (vid text : string) :
  match GetPrintFunc vid text with
  | None => exists k, text = lineFeeds k
  | Some m =>
      exists body k,
        m = taskMsg vid body /\ body <> ""
        /\ text = body +:+ lineFeeds k
        /\ forall b, body <> b +:+ NL
  end.
Proof.
  unfold GetPrintFunc, stripTrailingLF, lineFeeds.
  destruct (dropLeadingLF_spec (List.rev (list_ascii_of_string text))) as (k & Hl & Hhead).
  set (kept := dropLeadingLF (List.rev (list_ascii_of_string text))) in *.
  assert (Htext : text = string_of_list_ascii (List.rev kept)
                         +:+ string_of_list_ascii (repeat LF k)).
  { rewrite <- (string_of_list_ascii_of_string text) at 1.
    rewrite <- (List.rev_involutive (list_ascii_of_string text)), Hl.
    rewrite List.rev_app_distr, rev_repeat_LF.
    generalize (List.rev kept) (repeat LF k). intros a b.
    induction a as [|c a IH]; simpl; [reflexivity|]. by rewrite IH. }
  destruct (decide (string_of_list_ascii (List.rev kept) = "")) as [Hempty|Hne].
  - exists k. by rewrite Htext, Hempty.
  - eexists _, k. split_and!; [reflexivity|exact Hne|exact Htext|].
    intros b Hb. apply (f_equal list_ascii_of_string) in Hb.
    rewrite list_ascii_of_string_of_list_ascii in Hb.
    rewrite TaskFrameworkFacts.list_ascii_of_string_app in Hb.
    apply (f_equal (@List.rev ascii)) in Hb.
    rewrite List.rev_involutive, List.rev_app_distr in Hb. simpl in Hb.
    by apply (Hhead _ Hb).
Qed.

End TaskFrameworkMore.

(** ** The task printer with message histories: rows, loop and print function *)

Module TaskFrameworkV1Facts.
Import GoLib TaskFrameworkLoop TaskFrameworkV1.

Lemma Update_keeps_idMap (m : TaskFramework.Msg) (p : TaskPrinter) :
  idMap (Update m p) = idMap p.
Proof.
  destruct m; simpl; try reflexivity; repeat case_match; reflexivity.
Qed.

Lemma Update_keeps_rows (m : TaskFramework.Msg) (p : TaskPrinter) :
  length (tasks (Update m p)) = length (tasks p).
Proof.
  destruct m; simpl; try reflexivity; repeat case_match; simpl;
    by rewrite ?length_alter.
Qed.

Lemma Update_sets_quit (m : TaskFramework.Msg) (p : TaskPrinter) :
  quit (Update m p) = quit p || isQuit (Recv m).
Proof.
  destruct m; simpl; rewrite ?orb_false_r, ?orb_true_r; try reflexivity;
    repeat case_match; reflexivity.
Qed.

Lemma row_eta (t : taskState) :
  t = {| info := info t; stat := stat t; msgs := msgs t ++ [] |}.
Proof. destruct t; simpl. by rewrite app_nil_r. Qed.

(** One event, seen from row [i]. *)
Lemma Update_row (m : TaskFramework.Msg) (p : TaskPrinter) (i : nat) (t : taskState) :
  tasks p !! i = Some t ->
  tasks (Update m p) !! i =
    Some {| info := info t; stat := statAfter p i (stat t) m;
            msgs := msgs t ++ option_list (sentTo p i m) |}.
Proof.
  intros Ht.
  destruct m as [ | |vid vstat|vid vmsg| ]; cbn [Update statAfter sentTo option_list tasks];
    try (rewrite Ht; f_equal; apply row_eta).
  - destruct (idMap p !! vid) as [j|] eqn:Hj.
    + cbn [withTasks tasks]. destruct (decide (j = i)) as [->|Hne].
      * rewrite bool_decide_true by reflexivity.
        rewrite list_lookup_alter_eq, Ht. simpl. by rewrite app_nil_r.
      * rewrite bool_decide_false by congruence.
        rewrite list_lookup_alter_ne by exact Hne. rewrite Ht. f_equal. apply row_eta.
    + rewrite bool_decide_false by discriminate. rewrite Ht. f_equal. apply row_eta.
  - destruct (idMap p !! vid) as [j|] eqn:Hj.
    + destruct (decide (vmsg = "")) as [->|Hmsg].
      * rewrite (bool_decide_true ("" = "")) by reflexivity.
        rewrite andb_false_r. rewrite Ht. f_equal. apply row_eta.
      * rewrite (bool_decide_false (vmsg = "")) by exact Hmsg. rewrite andb_true_r.
        cbn [withTasks tasks]. destruct (decide (j = i)) as [->|Hne].
        -- rewrite bool_decide_true by reflexivity.
           by rewrite list_lookup_alter_eq, Ht.
        -- rewrite bool_decide_false by congruence.
           rewrite list_lookup_alter_ne by exact Hne. rewrite Ht. f_equal. apply row_eta.
    + rewrite bool_decide_false by discriminate. rewrite Ht. f_equal. apply row_eta.
Qed.

Lemma rows_after_events (p q : TaskPrinter) (ms : list TaskFramework.Msg)
    (i : nat) (t : taskState) :
  idMap q = idMap p ->
  tasks q !! i = Some t ->
  tasks (afterEvents q ms) !! i =
    Some {| info := info t; stat := foldl (statAfter p i) (stat t) ms;
            msgs := msgs t ++ omap (sentTo p i) ms |}.
Proof.
  revert q t. induction ms as [|m ms IH]; intros q t Hmap Ht.
  - simpl. rewrite Ht. f_equal. apply row_eta.
  - cbn [afterEvents foldl]. fold (afterEvents (Update m q) ms).
    rewrite (IH _ _ (eq_trans (Update_keeps_idMap m q) Hmap) (Update_row m q i t Ht)).
    cbn [info stat msgs omap list_omap].
    assert (Hs : statAfter q i (stat t) m = statAfter p i (stat t) m)
      by (destruct m; simpl; by rewrite ?Hmap).
    assert (Hm : sentTo q i m = sentTo p i m)
      by (destruct m; simpl; by rewrite ?Hmap).
    rewrite Hs, Hm. f_equal. f_equal.
    destruct (sentTo p i m); simpl; [|by rewrite app_nil_r].
    by rewrite <- app_assoc.
Qed.

(** X28. A row of the printer with histories, after any list of events:
    its task information is the same, its history is the former history
    followed by the non-empty messages sent to an id of that row, in the
    order they were sent, and its status is the last one sent to such an
    id. Nothing is ever removed from a history and no other event reaches
    the row. *)
Theorem row_after_events (p : TaskPrinter) (ms : list TaskFramework.Msg)
    (i : nat) (t : taskState) :
  tasks p !! i = Some t ->
  tasks (afterEvents p ms) !! i =
    Some {| info := info t; stat := foldl (statAfter p i) (stat t) ms;
            msgs := msgs t ++ omap (sentTo p i) ms |}.
Proof. apply rows_after_events. reflexivity. Qed.

Lemma row_after_events_witness :
  tasks (afterEvents twoTasks
           [GetPrintFunc "f1" "10%"; StatChange "f2" TaskFramework.TaskRun;
            GetPrintFunc "f2" "start"; GetPrintFunc "f1" "";
            GetPrintFunc "f1" "20%"]) !! 0%nat =
    Some {| info := TaskFramework.mkTaskInfo "f1" 0 3; stat := TaskFramework.TaskWait;
            msgs := ["初始化..."; "10%"; "20%"] |}.
Proof.
  exact (row_after_events twoTasks
           [GetPrintFunc "f1" "10%"; StatChange "f2" TaskFramework.TaskRun;
            GetPrintFunc "f2" "start"; GetPrintFunc "f1" "";
            GetPrintFunc "f1" "20%"] 0
           {| info := TaskFramework.mkTaskInfo "f1" 0 3; stat := TaskFramework.TaskWait;
              msgs := ["初始化..."] |} eq_refl).
Defined.

(** *** The loop of [Start] *)

Section StartLoop.

Variable StringWidth : string -> Z.

Lemma loop_left (inputs : list LoopInput) (p : TaskPrinter) (line : Z) (mask : list Z) :
  quit p = true -> loop StringWidth inputs p line mask = ([], p, line).
Proof. intros Hq. destruct inputs; simpl; by rewrite Hq. Qed.

Lemma Render_length (p : TaskPrinter) :
  Z.of_nat (length (Render p)) = Z.of_nat (length (tasks p)) + 1.
Proof. unfold Render. simpl length. rewrite length_map. lia. Qed.

Lemma loop_output (inputs : list LoopInput) (p : TaskPrinter) :
  quit p = false ->
  loop StringWidth inputs p (Z.of_nat (length (Render p))) (map StringWidth (Render p)) =
    (flat_map (redrawAt StringWidth p (map msgOf (uptoQuit inputs)))
       (seq 0 (length (uptoQuit inputs))),
     afterEvents p (map msgOf (uptoQuit inputs)),
     Z.of_nat (length (tasks p)) + 1).
Proof.
  revert p. induction inputs as [|i inputs IH]; intros p Hq.
  - cbn [loop uptoQuit map length seq flat_map afterEvents foldl].
    by rewrite Hq, Render_length.
  - cbn [loop]. rewrite Hq.
    assert (Hup : forall rest,
              redraw StringWidth (Z.of_nat (length (Render p)))
                (map StringWidth (Render p)) (Render (Update (msgOf i) p))
              = redrawAt StringWidth p (msgOf i :: rest) 0).
    { intros rest. unfold redraw, redrawAt. rewrite Render_length.
      by rewrite (proj2 (Z.ltb_lt 0 _)) by lia. }
    cbn [uptoQuit]. destruct (isQuit i) eqn:Hi.
    + rewrite loop_left
        by (rewrite Update_sets_quit; destruct i as [|[]]; try discriminate Hi;
            apply orb_true_r).
      cbn [map length seq flat_map afterEvents foldl].
      by rewrite (Hup []), Render_length, Update_keeps_rows, !app_nil_r.
    + rewrite IH
        by (rewrite Update_sets_quit, Hq; destruct i as [|[]]; try discriminate Hi;
            reflexivity).
      cbn [map length seq flat_map afterEvents foldl].
      rewrite (Hup (map msgOf (uptoQuit inputs))), Update_keeps_rows.
      assert (Hrest :
        flat_map
          (redrawAt StringWidth (Update (msgOf i) p) (map msgOf (uptoQuit inputs)))
          (seq 0 (length (uptoQuit inputs)))
        = flat_map (redrawAt StringWidth p (msgOf i :: map msgOf (uptoQuit inputs)))
            (seq 1 (length (uptoQuit inputs)))).
      { rewrite <- seq_shift, !flat_map_concat_map, map_map.
        f_equal. apply map_ext. intros k. unfold redrawAt.
        by rewrite Update_keeps_rows. }
      by rewrite Hrest.
Qed.

(** X29. [Start] of the printer with histories, from a printer whose
    [quit] is not set: it prints the first frame line by line without
    cursor movement or padding, then for every input up to and including
    the first quit message one redraw, which moves the cursor up by the
    number of tasks plus one and prints the frame after that input padded
    against the widths of the frame before it. When a quit message
    arrived, the cursor is moved down by the same count at the end. Inputs
    after the quit message are not handled. *)
Theorem Start_output (inputs : list LoopInput) (p : TaskPrinter) :
  quit p = false ->
  let handled := map msgOf (uptoQuit inputs) in
  Start StringWidth inputs p =
    (map (fun s => s +:+ NL) (Render p)
     ++ flat_map (redrawAt StringWidth p handled) (seq 0 (length handled))
     ++ (if existsb isQuit inputs
         then [LineMoveDown (Z.of_nat (length (tasks p)) + 1)] else []),
     afterEvents p handled).
Proof.
  intros Hq handled. subst handled. unfold Start.
  rewrite (loop_output inputs p Hq), length_map.
  assert (Hquit : forall q, quit q = false ->
            quit (afterEvents q (map msgOf (uptoQuit inputs))) = existsb isQuit inputs).
  { induction inputs as [|i inputs IH]; intros q Hq'; [exact Hq'|].
    cbn [uptoQuit existsb]. destruct (isQuit i) eqn:Hi.
    - cbn [map afterEvents foldl]. rewrite Update_sets_quit, Hq'.
      by destruct i as [|[]].
    - cbn [map afterEvents foldl orb]. apply IH.
      rewrite Update_sets_quit, Hq'. by destruct i as [|[]]. }
  rewrite (Hquit p Hq).
  destruct (existsb isQuit inputs); [|reflexivity].
  by rewrite (proj2 (Z.ltb_lt 0 _)) by lia.
Qed.

End StartLoop.

Lemma Start_output_witness :
  let inputs := [Recv (GetPrintFunc "f1" "10%"); Tick; Recv TaskFramework.quitMsg;
                 Recv (GetPrintFunc "f1" "late")] in
  let handled := map msgOf (uptoQuit inputs) in
  Start TaskFramework.asciiWidth inputs twoTasks =
    (map (fun s => s +:+ NL) (Render twoTasks)
     ++ flat_map (redrawAt TaskFramework.asciiWidth twoTasks handled)
          (seq 0 (length handled))
     ++ (if existsb isQuit inputs
         then [LineMoveDown (Z.of_nat (length (tasks twoTasks)) + 1)] else []),
     afterEvents twoTasks handled).
Proof.
  apply (Start_output TaskFramework.asciiWidth
           [Recv (GetPrintFunc "f1" "10%"); Tick; Recv TaskFramework.quitMsg;
            Recv (GetPrintFunc "f1" "late")] twoTasks).
  reflexivity.
Defined.

(** *** [GetPrintFunc] *)

Lemma removeLF_spec (s : string) :
  Contains (removeLF s) NL = false
  /\ (String.length (removeLF s) + CountLF s = String.length s)%nat
  /\ (Contains s NL = false -> removeLF s = s).
Proof.
  induction s as [|c s (Hno & Hlen & Hsame)]; [by split_and!|].
  cbn [removeLF CountLF String.length].
  destruct (Ascii.eqb_spec c LF) as [->|Hc].
  - split_and!; [exact Hno|lia|]. intros Hcontains. simpl in Hcontains.
    by destruct s.
  - assert (Hhead : forall rest, String.prefix NL (String c rest) = false).
    { intros rest. cbn [NL String.prefix].
      destruct (ascii_dec LF c) as [Heq|_]; [by destruct Hc|reflexivity]. }
    split_and!.
    + cbn [Contains]. by rewrite Hhead, Hno.
    + cbn [String.length]. lia.
    + cbn [Contains]. rewrite Hhead. intros Hrest. by rewrite (Hsame Hrest).
Qed.

(** X30. The print function of the printer with histories always sends
    one message for its id: the text with every line feed removed, so the
    message holds no line feed and a text without line feeds is sent as it
    is. When nothing but line feeds was printed the message is empty and
    [Update] ignores it: the printer is unchanged. *)
Theorem GetPrintFunc_removes_line_feeds (vid text : string) (p : TaskPrinter) :
  exists m,
    GetPrintFunc vid text = TaskFramework.taskMsg vid m
    /\ Contains m NL = false
    /\ (String.length m + CountLF text = String.length text)%nat
    /\ (Contains text NL = false -> m = text)
    /\ (CountLF text = String.length text -> Update (GetPrintFunc vid text) p = p).
Proof.
  exists (removeLF text). destruct (removeLF_spec text) as (Hno & Hlen & Hsame).
  split_and!; [reflexivity|exact Hno|exact Hlen|exact Hsame|].
  intros Hall.
  assert (Hempty : removeLF text = "")
    by (destruct (removeLF text); [reflexivity|simpl in Hlen; lia]).
  unfold GetPrintFunc. rewrite Hempty. simpl. by destruct (idMap p !! vid).
Qed.

End TaskFrameworkV1Facts.

(** ** Further properties of the upload task unit *)

Module PcsUploadMore.
Import GoLib PcsUpload PcsUploadCalls PcsUploadFacts.

Implicit Types (pathClean : string -> string) (getBlockSize : Z -> Z).
Implicit Types (w : World) (u : UploadTaskUnit) (o : list Event).

(** *** Closed forms of the remaining stages *)

Lemma prepareFile_closed pathClean w u d o :
  prepareFile pathClean w (mkState u d o) =
  let meta := LocalFileChecksum u in
  let st := Search meta d in
  let u0 := withState st
              (withPan (pathClean (fst (pathSplit (SavePath u))))
                 (snd (pathSplit (SavePath u))) u) in
  let o1 := o ++ [EvDbSearch meta] in
  if bool_decide (st <> None) || bool_decide (MD5 (readHashes meta d) <> None)
  then (tt, mkState (withStep StepUploadUpload (withMeta (readHashes meta d) u0)) d o1)
  else if NoRapidUpload u then (tt, mkState (withStep StepUploadUpload u0) d o1)
  else if Length meta >? MaxRapidUploadSize
  then (tt, mkState (withStep StepUploadUpload u0) d
              (o1 ++ [printfEvent w u "文件超过20GB, 无法使用秒传功能, 跳过秒传..." []]))
  else (tt, mkState (withStep StepUploadRapidUpload u0) d o1).
Proof.
  unfold prepareFile. run_monad.
  destruct (pathSplit (SavePath u)) as [dir file]. run_monad. cbn [fst snd].
  cbn [withPan withMeta withState LocalFileChecksum NoRapidUpload].
  destruct (bool_decide (Search (LocalFileChecksum u) d <> None)
            || bool_decide (MD5 (readHashes (LocalFileChecksum u) d) <> None)) eqn:Hfound;
    [reflexivity|].
  apply orb_false_elim in Hfound as [_ Hmd5]. apply bool_decide_eq_false in Hmd5.
  assert (Hsame : readHashes (LocalFileChecksum u) d = LocalFileChecksum u).
  { apply readHashes_none.
    destruct (MD5 (readHashes (LocalFileChecksum u) d)); [|reflexivity].
    by destruct Hmd5. }
  rewrite Hsame.
  destruct (NoRapidUpload u); [reflexivity|].
  destruct (Length (LocalFileChecksum u) >? MaxRapidUploadSize); run_monad; reflexivity.
Qed.

Lemma onError_cases err u d o :
  let r := fst (onError err emptyResult (mkState u d o)) in
  let s' := snd (onError err emptyResult (mkState u d o)) in
  Succeed r = false /\ Err r <> None /\ ResultMessage r <> ""
  /\ (s' = mkState u d o
      \/ s' = mkState u (Save (Delete (LocalFileChecksum u) d))
                (o ++ [EvDbDelete (LocalFileChecksum u); EvDbSave])).
Proof.
  destruct err as [e|text]; simpl.
  - destruct (GetErrType e); simpl.
    + destruct (GetRemoteErrCode e =? 31363).
      * run_monad. split_and!; try done. right. by rewrite <- app_assoc.
      * destruct (GetRemoteErrCode e =? 31061); split_and!; try done; by left.
    + destruct (Contains (GetErrorText e) "413 Request Entity Too Large");
        split_and!; try done; by left.
    + split_and!; try done; by left.
  - split_and!; try done; by left.
Qed.

Lemma listFailure_result pcsError r :
  listFailure pcsError = Some r ->
  Succeed r = false /\ Err r <> None.
Proof.
  destruct pcsError as [e|]; simpl; [|discriminate].
  destruct (GetErrType e); [destruct (_ =? _)|..]; intros [= <-]; by split.
Qed.

Lemma printf_quiet (f : Event -> bool) w u fmt a :
  (forall fmt a, f (EvStdout fmt a) = false) ->
  (forall n fmt a, f (EvPrinter n fmt a) = false) ->
  f (printfEvent w u fmt a) = false.
Proof.
  intros Hs Hp. unfold printfEvent.
  destruct (printer u); [destruct (IsVerbose w)|]; by rewrite ?Hs, ?Hp.
Qed.

Lemma filter_ticks (f : Event -> bool) w u ticks :
  (forall m st, f (EvDbUpdate m st) = false) -> f EvDbSave = false ->
  (forall fmt a, f (printfEvent w u fmt a) = false) ->
  List.filter f (flat_map (tickEvents w u) ticks) = [].
Proof.
  intros Hu Hs Hp. induction ticks as [|t ticks IH]; simpl; [reflexivity|].
  rewrite List.filter_app, IH, app_nil_r. unfold tickEvents.
  destruct (updateReady t); simpl; by rewrite ?Hu, ?Hs, ?Hp.
Qed.

Lemma filter_update_ticks w u ticks :
  List.filter isDbUpdate (flat_map (tickEvents w u) ticks)
  = map (fun t => EvDbUpdate (LocalFileChecksum u) (currentState t))
      (List.filter updateReady ticks).
Proof.
  induction ticks as [|t ticks IH]; simpl; [reflexivity|].
  rewrite List.filter_app, IH. unfold tickEvents.
  destruct (updateReady t); simpl;
    by rewrite (printf_quiet isDbUpdate) by (intros; reflexivity).
Qed.

Lemma not_skipped u d :
  bool_decide (Search (LocalFileChecksum u) d <> None)
  || bool_decide (MD5 (readHashes (LocalFileChecksum u) d) <> None) = false ->
  NoRapidUpload u = false ->
  (Length (LocalFileChecksum u) >? MaxRapidUploadSize) = false ->
  ~ (Search (LocalFileChecksum u) d <> None \/ MD5 (LocalFileChecksum u) <> None
     \/ NoRapidUpload u = true \/ Length (LocalFileChecksum u) > 21474836480).
Proof.
  intros [H1 H2]%orb_false_elim Hno Hbig.
  apply bool_decide_eq_false in H1, H2.
  unfold MaxRapidUploadSize in Hbig.
  intros [H|[H|[H|H]]]; [tauto| |congruence|].
  - apply H2. by rewrite (readHashes_known _ d H).
  - destruct (Z.gtb_spec (Length (LocalFileChecksum u)) (20 * 1024 * 1024 * 1024));
      [discriminate|lia].
Qed.

Lemma found_true u d :
  bool_decide (Search (LocalFileChecksum u) d <> None)
  || bool_decide (MD5 (readHashes (LocalFileChecksum u) d) <> None) = true ->
  Search (LocalFileChecksum u) d <> None
  \/ MD5 (readHashes (LocalFileChecksum u) d) <> None.
Proof.
  intros H. apply orb_true_elim in H as [H|H]; apply bool_decide_eq_true in H; tauto.
Qed.

Lemma not_skipped_read u d :
  bool_decide (Search (LocalFileChecksum u) d <> None)
  || bool_decide (MD5 (readHashes (LocalFileChecksum u) d) <> None) = false ->
  NoRapidUpload u = false ->
  (Length (LocalFileChecksum u) >? MaxRapidUploadSize) = false ->
  ~ (Search (LocalFileChecksum u) d <> None
     \/ MD5 (readHashes (LocalFileChecksum u) d) <> None
     \/ NoRapidUpload u = true \/ Length (LocalFileChecksum u) > 21474836480).
Proof.
  intros [H1 H2]%orb_false_elim Hno Hbig.
  apply bool_decide_eq_false in H1, H2.
  unfold MaxRapidUploadSize in Hbig.
  intros [H|[H|[H|H]]]; [tauto|tauto|congruence|].
  destruct (Z.gtb_spec (Length (LocalFileChecksum u)) (20 * 1024 * 1024 * 1024));
    [discriminate|lia].
Qed.

Lemma big_true (n : Z) : (n >? MaxRapidUploadSize) = true -> n > 21474836480.
Proof.
  unfold MaxRapidUploadSize. intros H.
  destruct (Z.gtb_spec n (20 * 1024 * 1024 * 1024)); [lia|discriminate].
Qed.

(** Case analysis of a run, stage by stage, on the equation [HR] that
    gives its result and final state. *)
Ltac split_prepare HR :=
  rewrite prepareFile_closed in HR; cbv zeta in HR;
  destruct (bool_decide _ || bool_decide _) eqn:Hfound in HR;
    [|destruct (NoRapidUpload _) eqn:Hnorapid in HR;
      [|destruct (_ >? MaxRapidUploadSize) eqn:Hbig in HR]];
  cbn [snd utu Step withStep] in HR.

Ltac split_rapid HR :=
  rewrite rapidUpload_run in HR; cbv zeta in HR;
  destruct (listFailure _) as [lr|] eqn:Hlist in HR;
    [|destruct (sumResult _) as [serr|[md0 sl0]] eqn:Hsum in HR;
      [|destruct (existsb (sameRemoteFile _) _) eqn:Hsame in HR;
        [|destruct (rapidUploadResult _) as [re|] eqn:Hrapid in HR;
          [destruct (exceedQuota re) eqn:Hquota in HR|]]]];
  cbn [fst snd] in HR.

Ltac split_upload HR :=
  rewrite upload_run in HR; cbv zeta in HR;
  destruct (transferOutcome _) as [|err] eqn:Houtcome in HR;
    [rewrite onSuccess_run in HR
    |match type of HR with
     | context [onError err emptyResult (mkState ?u1 ?d1 ?o1)] =>
         let Hs := fresh "Hsucceed" in
         let He := fresh "Herr" in
         let Hm := fresh "Hmsg" in
         let Hst := fresh "Hstate" in
         destruct (onError_cases err u1 d1 o1) as (Hs & He & Hm & [Hst|Hst]);
         cbv zeta in Hs, He, Hm, Hst;
         destruct (onError err emptyResult (mkState u1 d1 o1)) as [r' s1'];
         cbn [fst snd] in Hs, He, Hm, Hst; subst s1'
     end];
  cbn [fst snd closeFile utu db out] in HR.

Ltac run_paths :=
  lazymatch goal with
  | |- context [Run ?pc ?g ?w (start ?u ?d)] =>
      let HR := fresh "HR" in
      destruct (Run pc g w (start u d)) as [res s'] eqn:HR;
      rewrite Run_run in HR; cbv zeta in HR;
      destruct (openPathErr w) as [oerr|] eqn:Hopen in HR;
        [|split_prepare HR;
          [split_upload HR|split_upload HR|split_upload HR
          |split_rapid HR; [ | | | |split_upload HR| ]]];
      cbn [fst snd closeFile utu db out] in HR;
      injection HR as <- <-; cbn [fst snd closeFile utu db out]
  end.

(** The calls of one kind in the log of a path. *)
Ltac filter_calls f :=
  try destruct (_ >=? _);
  repeat (rewrite ?List.filter_app; simpl List.filter;
          rewrite ?(printf_quiet f) by (intros; reflexivity));
  rewrite ?(filter_ticks f)
    by (intros; first [reflexivity | apply printf_quiet; intros; reflexivity]).

Ltac count_calls f :=
  unfold count; filter_calls f; rewrite ?length_app; simpl length.


(** A run whose file opens and that skips the rapid upload. *)
Lemma skip_no_rapid_stage pathClean getBlockSize w u d :
  openPathErr w = None ->
  Search (LocalFileChecksum u) d <> None \/ MD5 (LocalFileChecksum u) <> None
  \/ NoRapidUpload u = true \/ Length (LocalFileChecksum u) > 21474836480 ->
  let l := out (snd (Run pathClean getBlockSize w (start u d))) in
  count isRapidStage l = 0%nat /\ count isExecute l = 1%nat.
Proof.
  intros Hopen' Hskip l. subst l. run_paths; try congruence.
  all: try (exfalso; exact (not_skipped u d Hfound Hnorapid Hbig Hskip)).
  all: split; [count_calls isRapidStage|count_calls isExecute]; reflexivity.
Qed.

Lemma run_caches_hashes pathClean getBlockSize w u d md5 sl :
  let s1 := snd (Run pathClean getBlockSize w (start u d)) in
  count isSum (out s1) = 1%nat ->
  sumResult w = inr (md5, sl) ->
  MD5 (LocalFileChecksum (utu s1)) = Some md5
  /\ SliceMD5 (LocalFileChecksum (utu s1)) = Some sl.
Proof.
  intros s1. subst s1. run_paths.
  all: count_calls isSum; intros Hcall Hsum'; try discriminate Hcall.
  all: try congruence.
  all: assert (md0 = md5 /\ sl0 = sl) as [-> ->] by (split; congruence).
  all: by split.
Qed.

Lemma fromHexChar_hexDigit (n : Z) : 0 <= n < 16 -> fromHexChar (hexDigit n) = Some n.
Proof.
  intros Hn. rewrite <- (Z2Nat.id n) by lia.
  assert (Hk : (Z.to_nat n < 16)%nat) by lia.
  revert Hk. generalize (Z.to_nat n) as k. intros k Hk.
  do 16 (destruct k as [|k]; [reflexivity|]). lia.
Qed.

Lemma hexDecode_encode_app (bs : list Z) (t : string) :
  Forall (fun b => 0 <= b < 256) bs ->
  hexDecodeString (hexEncodeToString bs +:+ t) = bs ++ hexDecodeString t.
Proof.
  unfold hexDecodeString, hexEncodeToString. intros Hbs.
  rewrite TaskFrameworkFacts.list_ascii_of_string_app, list_ascii_of_string_of_list_ascii.
  induction Hbs as [|b bs Hb _ IH]; [reflexivity|].
  cbn [flat_map app hexDecodeList].
  rewrite !fromHexChar_hexDigit.
  - rewrite IH. f_equal.
    rewrite Z.shiftr_div_pow2 by lia. change 15 with (Z.ones 4).
    rewrite Z.land_ones by lia. change (2 ^ 4) with 16.
    pose proof (Z.div_mod b 16). lia.
  - change 15 with (Z.ones 4). rewrite Z.land_ones by lia. change (2 ^ 4) with 16.
    apply Z.mod_pos_bound. lia.
  - rewrite Z.shiftr_div_pow2 by lia. change (2 ^ 4) with 16.
    split; [apply Z.div_pos; lia|apply Z.div_lt_upper_bound; lia].
Qed.

Lemma pathSplit_spec (s : string) :
  s = fst (pathSplit s) +:+ snd (pathSplit s)
  /\ Contains (snd (pathSplit s)) "/" = false
  /\ (fst (pathSplit s) = "" \/ exists d0, fst (pathSplit s) = d0 +:+ "/").
Proof.
  induction s as [|c s (IH1 & IH2 & IH3)]; simpl; [by repeat split; left|].
  destruct (pathSplit s) as [dir file]. cbn [fst snd] in *.
  destruct (decide (dir = "")) as [->|Hne].
  - simpl in IH1. subst s. destruct (Ascii.eqb_spec c "/"%char) as [->|Hc]; cbn [fst snd].
    + split_and!; [reflexivity|exact IH2|right; by exists ""].
    + split_and!; [reflexivity| |by left].
      cbn [Contains String.prefix].
      destruct (ascii_dec "/"%char c) as [Heq|_]; [by destruct Hc|]. exact IH2.
  - cbn [fst snd]. split_and!; [by subst s|exact IH2|].
    destruct IH3 as [?|[d0 ->]]; [done|]. right. by exists (String c d0).
Qed.

(** *** Properties of a run *)

(** X11. When the file cannot be opened, [Run] returns the nil result after
    two messages: it makes no other call, does not close the file and
    leaves the task unit and the checkpoint store as they were. *)
Theorem run_unreadable_file pathClean getBlockSize w u d err :
  openPathErr w = Some err ->
  Run pathClean getBlockSize w (start u d)
  = (None,
     mkState u d
       [printfEvent w u "准备上传: %s" [AStr (Path (LocalFileChecksum u))];
        EvOpenPath;
        printfEvent w u "文件不可读, 错误信息: %s, 跳过..." [AErr err]]).
Proof. intros Hopen. rewrite Run_run. cbv zeta. by rewrite Hopen. Qed.

(** X12. When the file opens, a run opens it once and closes it once, and
    the close is its last call, whatever the stages do. *)
Theorem run_closes_file pathClean getBlockSize w u d :
  openPathErr w = None ->
  let s' := snd (Run pathClean getBlockSize w (start u d)) in
  count isOpenPath (out s') = 1%nat
  /\ exists pre, out s' = pre ++ [EvClose] /\ count isClose pre = 0%nat.
Proof.
  intros Hopen' s'. subst s'. run_paths; try congruence.
  all: split;
    [ count_calls isOpenPath; reflexivity
    | match goal with |- exists pre, ?front ++ [EvClose] = _ /\ _ => exists front end;
      split; [reflexivity|]; count_calls isClose; reflexivity ].
Qed.

(** X13. The calls of the stages that a run makes, in the order it makes
    them, are a listing request, then the hashing, then the rapid upload
    call, then the start of the transfer, cut off where the run ends; or
    the start of the transfer alone, or none. So the hashes are computed
    only after a listing request, the rapid upload is called only after
    the hashing, a transfer that follows them starts after all three, and
    none of the four happens twice. *)
Theorem run_stage_calls_in_order pathClean getBlockSize w u d :
  match List.filter isStageCall (out (snd (Run pathClean getBlockSize w (start u d)))) with
  | []
  | [EvExecute _ _]
  | [EvListDir _]
  | [EvListDir _; EvSum]
  | [EvListDir _; EvSum; EvRapidUpload _ _ _ _ _]
  | [EvListDir _; EvSum; EvRapidUpload _ _ _ _ _; EvExecute _ _] => True
  | _ => False
  end.
Proof.
  run_paths.
  all: filter_calls isStageCall; exact I.
Qed.

(** X14. [Run] returns the nil result exactly when the file cannot be
    opened. Any other result never has [Succeed] and [NeedRetry] together;
    a success carries no error and a result that asks for a retry carries
    one. *)
Theorem run_result_shape pathClean getBlockSize w u d :
  match fst (Run pathClean getBlockSize w (start u d)) with
  | None => openPathErr w <> None
  | Some r =>
      openPathErr w = None
      /\ (Succeed r = true -> NeedRetry r = false /\ Err r = None)
      /\ (NeedRetry r = true -> Succeed r = false /\ Err r <> None)
  end.
Proof.
  run_paths; [congruence|..].
  all: split_and!; [exact Hopen|..]; cbn [Succeed NeedRetry Err emptyResult].
  all: try (intros; by split).
  all: try congruence.
  all: destruct (listFailure_result _ _ Hlist) as [Hs He];
    first [congruence|intros; by split].
Qed.

(** X15. When the file opens and resume state is found, or the MD5 is
    known, or rapid upload is switched off, or the file is longer than
    20 GiB, the run makes no listing request, computes no hash, makes no
    rapid upload call and starts exactly one transfer. *)
Theorem run_skips_rapid_upload pathClean getBlockSize w u d :
  openPathErr w = None ->
  Search (LocalFileChecksum u) d <> None \/ MD5 (LocalFileChecksum u) <> None
  \/ NoRapidUpload u = true \/ Length (LocalFileChecksum u) > 21474836480 ->
  let l := out (snd (Run pathClean getBlockSize w (start u d))) in
  count isRapidStage l = 0%nat /\ count isExecute l = 1%nat.
Proof. apply skip_no_rapid_stage. Qed.

(** X16. When the file opens, the run requests a listing exactly if none
    of the skip conditions holds after the search of the checkpoint store:
    no resume state was found, the MD5 is not known (neither to the task
    unit nor from the entry of the file in the store), rapid upload is not
    switched off and the file is not longer than 20 GiB. It then requests
    exactly one listing, for the cleaned directory part of [SavePath]; in
    every other case it requests none. *)
Theorem run_lists_parent_directory pathClean getBlockSize w u d :
  openPathErr w = None ->
  let meta := LocalFileChecksum u in
  let skip :=
    Search meta d <> None \/ MD5 (readHashes meta d) <> None
    \/ NoRapidUpload u = true \/ Length meta > 21474836480 in
  let listings :=
    List.filter isListDir (out (snd (Run pathClean getBlockSize w (start u d)))) in
  (skip -> listings = [])
  /\ (~ skip -> listings = [EvListDir (pathClean (fst (pathSplit (SavePath u))))]).
Proof.
  intros Hopen' meta skip listings. subst meta skip listings.
  run_paths; try congruence.
  all: split; intros Hskip.
  all: try (exfalso; exact (not_skipped_read u d Hfound Hnorapid Hbig Hskip)).
  all: try (exfalso; apply Hskip;
    first [ right; right; left; exact Hnorapid
          | destruct (found_true _ _ Hfound); tauto
          | right; right; right; exact (big_true _ Hbig) ]).
  all: filter_calls isListDir; reflexivity.
Qed.

(** X17. A run starts no transfer or exactly one; that transfer is seeded
    with the resume state that [Search] returned for the file and is
    configured with the parallelism, the conflict policy and the rate limit
    as given, and with the file length as block size when splitting is
    switched off, else with [getBlockSize] of the length. *)
Theorem run_transfer_seed pathClean getBlockSize w u d :
  let l := out (snd (Run pathClean getBlockSize w (start u d))) in
  let cfg := {| cfgParallel := Parallel u;
                cfgBlockSize := if NoSplitFile u then Length (LocalFileChecksum u)
                                else getBlockSize (Length (LocalFileChecksum u));
                cfgMaxRate := MaxUploadRate w; cfgPolicy := Policy u |} in
  List.filter isExecute l = []
  \/ List.filter isExecute l = [EvExecute cfg (Search (LocalFileChecksum u) d)].
Proof.
  intros l cfg. subst l cfg. run_paths.
  all: filter_calls isExecute; unfold uploadConfig; simpl;
    rewrite ?readHashes_Length; try (left; reflexivity); try (right; reflexivity).
  all: apply orb_false_elim in Hfound as [Hf _]; apply bool_decide_eq_false in Hf;
    destruct (Search (LocalFileChecksum u) d); [exfalso; by apply Hf|];
    right; reflexivity.
Qed.

(** X18. A run that starts no transfer makes no call that changes the
    checkpoint store, and the store is the same afterwards. *)
Theorem run_without_transfer_keeps_store pathClean getBlockSize w u d :
  let s' := snd (Run pathClean getBlockSize w (start u d)) in
  count isExecute (out s') = 0%nat ->
  db s' = d /\ count isDbWrite (out s') = 0%nat.
Proof.
  intros s'. subst s'. run_paths.
  all: try (count_calls isExecute; discriminate).
  all: intros _; split; [reflexivity|count_calls isDbWrite; reflexivity].
Qed.

(** X19. All messages of a run go the same way: with a printer set and
    verbose mode off nothing is written to standard output; in verbose mode
    or without a printer nothing goes through the printer. *)
Theorem run_output_route pathClean getBlockSize w u d :
  let l := out (snd (Run pathClean getBlockSize w (start u d))) in
  match printer u with
  | Some name => if IsVerbose w then count isPrinter l = 0%nat
                 else count isStdout l = 0%nat
  | None => count isPrinter l = 0%nat
  end.
Proof.
  intros l. subst l. run_paths.
  all: destruct (printer u) as [name|] eqn:Hp; [destruct (IsVerbose w) eqn:Hv|].
  all: unfold count; try destruct (_ >=? _);
    repeat (rewrite ?List.filter_app; simpl List.filter);
    unfold printfEvent; cbn [printer withStep withState withPan withHashes withMeta];
    rewrite ?Hp, ?Hv; cbn [isPrinter isStdout];
    rewrite ?(filter_ticks isPrinter), ?(filter_ticks isStdout)
      by (intros; first [reflexivity
                        | unfold printfEvent;
                          cbn [printer withStep withState withPan withHashes withMeta];
                          rewrite ?Hp, ?Hv; reflexivity]);
    reflexivity.
Qed.

(** X20. When the listing request of a run fails with anything but the
    remote code 31066, the run ends with a failure that carries the error:
    final for a remote error, to be retried for any other kind. No hash is
    computed, no transfer starts and the store is unchanged. *)
Theorem run_listing_failure pathClean getBlockSize w u d e :
  let res := Run pathClean getBlockSize w (start u d) in
  count isListDir (out (snd res)) = 1%nat ->
  snd (listResult w) = Some e ->
  ~ (GetErrType e = ErrTypeRemoteError /\ GetRemoteErrCode e = 31066) ->
  fst res = Some {| Succeed := false;
                    NeedRetry := match GetErrType e with
                                 | ErrTypeRemoteError => false
                                 | _ => true
                                 end;
                    Err := Some (Classified e);
                    ResultMessage := "获取文件列表错误" |}
  /\ count isSum (out (snd res)) = 0%nat
  /\ count isExecute (out (snd res)) = 0%nat
  /\ db (snd res) = d.
Proof.
  intros res. subst res. run_paths.
  all: count_calls isListDir; intros Hcall He Hnot; try discriminate Hcall.
  all: rewrite He in Hlist; simpl in Hlist.
  all: try (exfalso; destruct (GetErrType e) eqn:Hty; try discriminate Hlist;
            destruct (Z.eqb_spec (GetRemoteErrCode e) 31066); [by apply Hnot|discriminate Hlist]).
  split_and!; [|count_calls isSum; reflexivity|count_calls isExecute; reflexivity|reflexivity].
  destruct (GetErrType e); [destruct (_ =? _); [discriminate|]|..]; by injection Hlist as <-.
Qed.

(** X21. A listing request that fails with the remote code 31066 does not
    end the run: the hashes are computed next. *)
Theorem run_listing_not_found pathClean getBlockSize w u d e :
  let res := Run pathClean getBlockSize w (start u d) in
  count isListDir (out (snd res)) = 1%nat ->
  snd (listResult w) = Some e ->
  GetErrType e = ErrTypeRemoteError -> GetRemoteErrCode e = 31066 ->
  count isSum (out (snd res)) = 1%nat.
Proof.
  intros res. subst res. run_paths.
  all: count_calls isListDir; intros Hcall He Hty Hcode; try discriminate Hcall.
  all: try (rewrite He in Hlist; simpl in Hlist; rewrite Hty, Hcode in Hlist; discriminate Hlist).
  all: count_calls isSum; reflexivity.
Qed.

(** X22. When computing the hashes fails, the run ends with a final
    failure that carries the error; the rapid upload is not called, no
    transfer starts, and the file meta data and the store are unchanged. *)
Theorem run_sum_failure pathClean getBlockSize w u d sumErr :
  let res := Run pathClean getBlockSize w (start u d) in
  count isSum (out (snd res)) = 1%nat ->
  sumResult w = inl sumErr ->
  fst res = Some {| Succeed := false; NeedRetry := false; Err := Some sumErr;
                    ResultMessage := "计算文件秒传信息错误" |}
  /\ count isRapidUpload (out (snd res)) = 0%nat
  /\ count isExecute (out (snd res)) = 0%nat
  /\ LocalFileChecksum (utu (snd res)) = LocalFileChecksum u
  /\ db (snd res) = d.
Proof.
  intros res. subst res. run_paths.
  all: count_calls isSum; intros Hcall Herr'; try discriminate Hcall.
  all: try congruence.
  all: assert (serr = sumErr) as -> by congruence.
  all: split_and!; [reflexivity|count_calls isRapidUpload; reflexivity
                   |count_calls isExecute; reflexivity|reflexivity|reflexivity].
Qed.

(** X23. When the rapid upload call succeeds, the run returns success,
    adds the file length to the statistics exactly once, starts no transfer
    and leaves the store unchanged. *)
Theorem run_rapid_upload_success pathClean getBlockSize w u d :
  let res := Run pathClean getBlockSize w (start u d) in
  count isRapidUpload (out (snd res)) = 1%nat ->
  rapidUploadResult w = None ->
  fst res = Some {| Succeed := true; NeedRetry := false; Err := None;
                    ResultMessage := "" |}
  /\ List.filter isAddTotalSize (out (snd res))
     = [EvAddTotalSize (Length (LocalFileChecksum u))]
  /\ count isExecute (out (snd res)) = 0%nat
  /\ db (snd res) = d.
Proof.
  intros res. subst res. run_paths.
  all: count_calls isRapidUpload; intros Hcall Hnone; try discriminate Hcall.
  all: try congruence.
  all: split_and!; [reflexivity| |count_calls isExecute; reflexivity|reflexivity].
  all: repeat (rewrite ?List.filter_app; simpl List.filter;
               rewrite ?(printf_quiet isAddTotalSize) by (intros; reflexivity));
    reflexivity.
Qed.

(** X24. Once a run has computed the hashes, the MD5 stays in the task
    unit, and any later run of this unit whose file opens goes straight to
    the transfer: no listing, no hashing, no rapid upload call. *)
Theorem run_again_skips_rapid pathClean getBlockSize w u d md5 sl w2 d2 :
  let s1 := snd (Run pathClean getBlockSize w (start u d)) in
  count isSum (out s1) = 1%nat ->
  sumResult w = inr (md5, sl) ->
  openPathErr w2 = None ->
  let l2 := out (snd (Run pathClean getBlockSize w2 (start (utu s1) d2))) in
  MD5 (LocalFileChecksum (utu s1)) = Some md5
  /\ count isRapidStage l2 = 0%nat /\ count isExecute l2 = 1%nat.
Proof.
  intros s1 Hsum Hres Hopen l2. subst l2 s1.
  destruct (run_caches_hashes pathClean getBlockSize w u d md5 sl Hsum Hres) as [Hmd5 _].
  split; [exact Hmd5|].
  apply skip_no_rapid_stage; [exact Hopen|]. right. left. by rewrite Hmd5.
Qed.

(** X25. During [upload] the store receives the state of the uploader
    exactly for the status events that find the update signal ready, in
    their order, under the identity of the file; the final callbacks add no
    such update. *)
Theorem upload_persists_ready_states getBlockSize w s :
  let s' := snd (upload getBlockSize w s) in
  List.filter isDbUpdate (out s')
  = List.filter isDbUpdate (out s)
    ++ map (fun t => EvDbUpdate (LocalFileChecksum (utu s)) (currentState t))
         (List.filter updateReady (transferTicks w)).
Proof.
  intros s'. subst s'. destruct s as [u d o]. rewrite upload_run. cbv zeta.
  destruct (transferOutcome w) as [|err].
  - rewrite onSuccess_run. cbn [snd out utu].
    rewrite !List.filter_app. simpl List.filter. rewrite filter_update_ticks.
    rewrite (printf_quiet isDbUpdate) by (intros; reflexivity).
    by rewrite !app_nil_r.
  - match goal with |- context [onError err ?r (mkState ?u1 ?d1 ?o1)] =>
      destruct (onError_cases err u1 d1 o1) as (_ & _ & _ & [Hst|Hst]) end;
      cbv zeta in Hst; rewrite Hst; cbn [snd out utu];
      rewrite !List.filter_app; simpl List.filter; rewrite filter_update_ticks;
      by rewrite ?app_nil_r.
Qed.

(** X26. The comparison of [rapidUpload] accepts a listing entry with the
    leaf name whose MD5 text is the hexadecimal form of the local MD5,
    also when text follows that the decoder rejects: the decoding error is
    ignored. *)
Theorem dedup_accepts_hex_of_local_md5 u fd md5 t :
  MD5 (LocalFileChecksum u) = Some md5 ->
  Forall (fun b => 0 <= b < 256) md5 ->
  fdFilename fd = panFile u ->
  fdMD5 fd = hexEncodeToString md5 +:+ t ->
  hexDecodeString t = [] ->
  sameRemoteFile u fd = true.
Proof.
  intros Hmd5 Hbytes Hname Hhex Ht. unfold sameRemoteFile.
  rewrite Hname, Hhex, Hmd5, (hexDecode_encode_app _ _ Hbytes), Ht, app_nil_r. cbn [default].
  by rewrite !bool_decide_eq_true_2.
Qed.

(** X27. [prepareFile] cuts [SavePath] after its last slash: the leaf name
    holds no slash, the directory part is empty or ends with a slash and is
    stored cleaned, and directory part and leaf name together are
    [SavePath]. *)
Theorem prepareFile_leaf_name pathClean w s :
  let s' := snd (prepareFile pathClean w s) in
  exists dir,
    SavePath (utu s) = dir +:+ panFile (utu s')
    /\ panDir (utu s') = pathClean dir
    /\ Contains (panFile (utu s')) "/" = false
    /\ (dir = "" \/ exists d0, dir = d0 +:+ "/").
Proof.
  intros s'. subst s'. destruct s as [u d o].
  destruct (prepareFile_run w pathClean u d o) as (step & evs & -> & _).
  cbn [snd utu panFile panDir withStep withState withPan].
  destruct (pathSplit_spec (SavePath u)) as (H1 & H2 & H3).
  exists (fst (pathSplit (SavePath u))). by split_and!.
Qed.

(** *** The properties at concrete runs *)

Lemma run_unreadable_file_witness :
  let w := worldOf (Some (Unclassified "permission denied")) (None, None)
             (inr (exampleMD5, [1; 2])) None TransferSucceeds in
  Run exampleClean exampleBlockSize w (start exampleUnit emptyDb)
  = (None,
     mkState exampleUnit emptyDb
       [printfEvent w exampleUnit "准备上传: %s" [AStr (Path (LocalFileChecksum exampleUnit))];
        EvOpenPath;
        printfEvent w exampleUnit "文件不可读, 错误信息: %s, 跳过..."
          [AErr (Unclassified "permission denied")]]).
Proof.
  apply (run_unreadable_file exampleClean exampleBlockSize
           (worldOf (Some (Unclassified "permission denied")) (None, None)
              (inr (exampleMD5, [1; 2])) None TransferSucceeds)
           exampleUnit emptyDb (Unclassified "permission denied")).
  reflexivity.
Defined.

Lemma run_closes_file_witness :
  let s' := snd (Run exampleClean exampleBlockSize
                   (exampleWorld false [] (Some (netError "timeout")) TransferSucceeds)
                   (start exampleUnit emptyDb)) in
  count isOpenPath (out s') = 1%nat
  /\ exists pre, out s' = pre ++ [EvClose] /\ count isClose pre = 0%nat.
Proof.
  apply (run_closes_file exampleClean exampleBlockSize
           (exampleWorld false [] (Some (netError "timeout")) TransferSucceeds)
           exampleUnit emptyDb).
  reflexivity.
Defined.

Lemma run_skips_rapid_upload_witness :
  let l := out (snd (Run exampleClean exampleBlockSize
                       (exampleWorld false [] None TransferSucceeds)
                       (start hashedUnit emptyDb))) in
  count isRapidStage l = 0%nat /\ count isExecute l = 1%nat.
Proof.
  apply (run_skips_rapid_upload exampleClean exampleBlockSize
           (exampleWorld false [] None TransferSucceeds) hashedUnit emptyDb).
  - reflexivity.
  - right. left. discriminate.
Defined.

Lemma run_lists_parent_directory_witness :
  let w := exampleWorld false [] None TransferSucceeds in
  List.filter isListDir
    (out (snd (Run exampleClean exampleBlockSize w (start exampleUnit placeholderDb))))
  = []
  /\ List.filter isListDir
       (out (snd (Run exampleClean exampleBlockSize w (start exampleUnit emptyDb))))
     = [EvListDir (exampleClean (fst (pathSplit (SavePath exampleUnit))))].
Proof.
  split.
  - apply (run_lists_parent_directory exampleClean exampleBlockSize
             (exampleWorld false [] None TransferSucceeds) exampleUnit placeholderDb).
    + reflexivity.
    + right. left. discriminate.
  - apply (run_lists_parent_directory exampleClean exampleBlockSize
             (exampleWorld false [] None TransferSucceeds) exampleUnit emptyDb).
    + reflexivity.
    + intros [H|[H|[H|H]]].
      * by apply H.
      * by apply H.
      * discriminate H.
      * discriminate H.
Defined.

Lemma run_without_transfer_keeps_store_witness :
  let s' := snd (Run exampleClean exampleBlockSize
                   (exampleWorld false [] None TransferSucceeds)
                   (start exampleUnit resumeDb0)) in
  db s' = resumeDb0 /\ count isDbWrite (out s') = 0%nat.
Proof.
  apply (run_without_transfer_keeps_store exampleClean exampleBlockSize
           (exampleWorld false [] None TransferSucceeds) exampleUnit resumeDb0).
  reflexivity.
Defined.

Lemma run_listing_failure_witness :
  let res := Run exampleClean exampleBlockSize
               (worldOf None (None, Some (netError "timeout"))
                  (inr (exampleMD5, [1; 2])) None TransferSucceeds)
               (start exampleUnit emptyDb) in
  fst res = Some {| Succeed := false; NeedRetry := true;
                    Err := Some (Classified (netError "timeout"));
                    ResultMessage := "获取文件列表错误" |}
  /\ count isSum (out (snd res)) = 0%nat
  /\ count isExecute (out (snd res)) = 0%nat
  /\ db (snd res) = emptyDb.
Proof.
  apply (run_listing_failure exampleClean exampleBlockSize
           (worldOf None (None, Some (netError "timeout"))
              (inr (exampleMD5, [1; 2])) None TransferSucceeds)
           exampleUnit emptyDb (netError "timeout")).
  - reflexivity.
  - reflexivity.
  - intros [Hty _]. discriminate Hty.
Defined.

Lemma run_listing_not_found_witness :
  count isSum
    (out (snd (Run exampleClean exampleBlockSize
                 (worldOf None (None, Some (remoteError 31066))
                    (inr (exampleMD5, [1; 2])) None TransferSucceeds)
                 (start exampleUnit emptyDb))))
  = 1%nat.
Proof.
  apply (run_listing_not_found exampleClean exampleBlockSize
           (worldOf None (None, Some (remoteError 31066))
              (inr (exampleMD5, [1; 2])) None TransferSucceeds)
           exampleUnit emptyDb (remoteError 31066)); reflexivity.
Defined.

Lemma run_sum_failure_witness :
  let res := Run exampleClean exampleBlockSize
               (worldOf None (Some [], None) (inl (Unclassified "read error")) None
                  TransferSucceeds)
               (start exampleUnit emptyDb) in
  fst res = Some {| Succeed := false; NeedRetry := false;
                    Err := Some (Unclassified "read error");
                    ResultMessage := "计算文件秒传信息错误" |}
  /\ count isRapidUpload (out (snd res)) = 0%nat
  /\ count isExecute (out (snd res)) = 0%nat
  /\ LocalFileChecksum (utu (snd res)) = LocalFileChecksum exampleUnit
  /\ db (snd res) = emptyDb.
Proof.
  apply (run_sum_failure exampleClean exampleBlockSize
           (worldOf None (Some [], None) (inl (Unclassified "read error")) None
              TransferSucceeds)
           exampleUnit emptyDb (Unclassified "read error")); reflexivity.
Defined.

Lemma run_rapid_upload_success_witness :
  let res := Run exampleClean exampleBlockSize
               (exampleWorld false [] None TransferSucceeds)
               (start exampleUnit emptyDb) in
  fst res = Some {| Succeed := true; NeedRetry := false; Err := None;
                    ResultMessage := "" |}
  /\ List.filter isAddTotalSize (out (snd res))
     = [EvAddTotalSize (Length (LocalFileChecksum exampleUnit))]
  /\ count isExecute (out (snd res)) = 0%nat
  /\ db (snd res) = emptyDb.
Proof.
  apply (run_rapid_upload_success exampleClean exampleBlockSize
           (exampleWorld false [] None TransferSucceeds) exampleUnit emptyDb);
    reflexivity.
Defined.

(** A first run whose rapid upload is rejected and whose transfer fails
    with a network error, and the retry. *)
Lemma run_again_skips_rapid_witness :
  let w := exampleWorld false [] (Some (netError "timeout"))
             (TransferFails (Classified (netError "connection reset by peer"))) in
  let s1 := snd (Run exampleClean exampleBlockSize w (start exampleUnit emptyDb)) in
  let l2 := out (snd (Run exampleClean exampleBlockSize w (start (utu s1) (db s1)))) in
  MD5 (LocalFileChecksum (utu s1)) = Some exampleMD5
  /\ count isRapidStage l2 = 0%nat /\ count isExecute l2 = 1%nat.
Proof.
  pose (w := exampleWorld false [] (Some (netError "timeout"))
               (TransferFails (Classified (netError "connection reset by peer")))).
  apply (run_again_skips_rapid exampleClean exampleBlockSize w exampleUnit emptyDb
           exampleMD5 [1; 2] w
           (db (snd (Run exampleClean exampleBlockSize w (start exampleUnit emptyDb)))));
    reflexivity.
Defined.

Lemma dedup_accepts_hex_of_local_md5_witness :
  sameRemoteFile (withPan "/apps/x" "a.bin" hashedUnit)
    (mkFd "a.bin" "d41d8cd98f00b204e9800998ecf8427e (stale)")
  = true.
Proof.
  apply (dedup_accepts_hex_of_local_md5 (withPan "/apps/x" "a.bin" hashedUnit)
           (mkFd "a.bin" "d41d8cd98f00b204e9800998ecf8427e (stale)")
           exampleMD5 " (stale)").
  - reflexivity.
  - vm_compute. repeat constructor; discriminate.
  - reflexivity.
  - reflexivity.
  - reflexivity.
Defined.

End PcsUploadMore.
